(** * ROADRUNNER UN MiniFuel: correlations and first-order uncertainty propagation

    A shallow embedding of the numerical core of the four scripts

      - [scripts/sensitivity_analysis.py]        (module [Sensitivity])
      - [scripts/figure14_fgr_comparison.py]     (module [Figure14])
      - [scripts/figure15_swelling_ross.py]      (module [Figure15])
      - [scripts/figure12_irradiation_conditions.py] (module [Figure12])

    Number model.  Python floats are read as real numbers: every arithmetic
    operation, [np.exp], [np.sqrt] and [**] is the exact real operation, so
    rounding, overflow ([inf]) and [nan] are outside the model.  What the
    model does keep of Python is the part that decides whether an evaluation
    returns a float at all: a float division by zero raises
    [ZeroDivisionError], and a negative base under a fractional exponent
    yields a complex number without any exception.

    The correlations are called with Python scalars only ([int] and
    [float], the entries of the rows that [df.iterrows()] and
    [df.apply(..., axis=1)] hand over), so Python's own rules for [/] and
    [**] apply to their arguments.

    The specimen tables are kept as they are written in each script: a
    dictionary from column names to columns, integers as [Z] and decimal
    literals as exact rationals [Q]; they are injected into [R] when a
    correlation is evaluated. *)

From Stdlib Require Import Reals QArith Qreals Lra Lia List ZArith String Bool.
From Stdlib Require Import Sorted Permutation.
Import ListNotations.

Set Implicit Arguments.

Local Open Scope R_scope.

(* ================================================================= *)
(** ** Python values, exceptions and arithmetic *)

Module Py.

(** The only exception the scripts' arithmetic can raise. *)
Inductive exn : Type :=
| ZeroDivisionError.

(** A numeric value: a float (read as a real number) or a complex number,
    whose value is not modelled. *)
Inductive pyval : Type :=
| PyFloat (r : R)
| PyComplex.

(** How a piece of code ends: with a value, with an exception that
    propagates to the caller, or ([Beyond]) with a complex number reaching
    driver code, where the model stops following the run. *)
Inductive outcome (A : Type) : Type :=
| Ok (a : A)
| Raise (e : exn)
| Beyond.

Arguments Raise {A} e.
Arguments Beyond {A}.

Definition bind {A B : Type} (m : outcome A) (k : A -> outcome B) : outcome B :=
  match m with
  | Ok a => k a
  | Raise e => Raise e
  | Beyond => Beyond
  end.

Fixpoint mapM {A B : Type} (f : A -> outcome B) (l : list A) : outcome (list B) :=
  match l with
  | [] => Ok []
  | x :: t =>
      bind (f x) (fun y => bind (mapM f t) (fun ys => Ok (y :: ys)))
  end.

(** Apply a real function to a float; a complex argument stays complex. *)
Definition py_map (f : R -> R) (v : pyval) : pyval :=
  match v with
  | PyFloat r => PyFloat (f r)
  | PyComplex => PyComplex
  end.

(** [a * b]: real product of two floats, complex as soon as one side is. *)
Definition py_mul (a b : pyval) : pyval :=
  match a, b with
  | PyFloat x, PyFloat y => PyFloat (x * y)
  | _, _ => PyComplex
  end.

(** [x ** y] on a Python float [x], for a positive exponent [y] that is not
    an integer (0.77, 0.09, 1.92, 3.12, 0.83 and 0.5 are the only exponents
    in the scripts): the real power for a positive base, [0.0] for a zero
    base, and a complex number for a negative base. *)
Definition py_pow (x y : R) : pyval :=
  if Rlt_dec 0 x then PyFloat (Rpower x y)
  else if Req_dec_T x 0 then PyFloat 0
  else PyComplex.

(** [a / b] on Python scalars: a zero float divisor raises, whatever the
    dividend.  A complex divisor only arises here as a power of a negative
    base, which is never zero, so the quotient is then a complex number. *)
Definition py_div (a b : pyval) : outcome pyval :=
  match b with
  | PyFloat d =>
      if Req_dec_T d 0 then Raise ZeroDivisionError
      else Ok (py_map (fun n => n / d) a)
  | PyComplex => Ok PyComplex
  end.

(** Driver code goes on with floats only; see [Beyond]. *)
Definition real (o : outcome pyval) : outcome R :=
  match o with
  | Ok (PyFloat r) => Ok r
  | Ok PyComplex => Beyond
  | Raise e => Raise e
  | Beyond => Beyond
  end.

(** *** Data frames: a dictionary of named columns *)

Inductive column : Type :=
| Strs (l : list string)
| Ints (l : list Z)
| Floats (l : list Q).

Definition DataFrame : Type := list (string * column).

Fixpoint get (k : string) (df : DataFrame) : option column :=
  match df with
  | [] => None
  | (k', c) :: rest => if String.eqb k k' then Some c else get k rest
  end.

Definition strs (k : string) (df : DataFrame) : list string :=
  match get k df with Some (Strs l) => l | _ => [] end.

Definition ints (k : string) (df : DataFrame) : list Z :=
  match get k df with Some (Ints l) => l | _ => [] end.

Definition floats (k : string) (df : DataFrame) : list Q :=
  match get k df with Some (Floats l) => l | _ => [] end.

End Py.

Import Py.

Declare Scope py_scope.
Notation "x <- m ;; k" := (bind m (fun x => k))
  (at level 61, m at next level, right associativity) : py_scope.

Local Open Scope string_scope.
Local Open Scope py_scope.

(* ================================================================= *)
(** ** scripts/sensitivity_analysis.py *)

Module Sensitivity.

(** The [data] dictionary, lines 36-70. *)
Definition data : list (string * column) :=
  [ ("Sample_ID",
     Strs [
      "RRN01-6"; "RRN01-5"; "RRN01-4"; "RRN01-3"; "RRN01-2"; "RRN01-1";
      "RRN02-6"; "RRN02-5"; "RRN02-4"; "RRN02-3"; "RRN02-2"; "RRN02-1";
      "RRN03-6"; "RRN03-5"; "RRN03-4"; "RRN03-3"; "RRN03-2"; "RRN03-1";
      "RRN04-6"; "RRN04-5"; "RRN04-4"; "RRN04-3"; "RRN04-2"; "RRN04-1";
      "RRN05-6"; "RRN05-5"; "RRN05-4"; "RRN05-3"; "RRN05-2"; "RRN05-1";
      "RRN06-6"; "RRN06-5"; "RRN06-4"; "RRN06-3"; "RRN06-2"; "RRN06-1" ]);
    ("Target",
     Ints (repeat 1%Z 6 ++ repeat 2%Z 6 ++ repeat 3%Z 6 ++ repeat 4%Z 6 ++ repeat 5%Z 6 ++ repeat 6%Z 6));
    ("T_K",
     Ints [
      1190; 1190; 1181; 1183; 1163; 1182;
      877; 881; 1183; 1479; 1487; 1181;
      1184; 1187; 1181; 1172; 1187; 1181;
      875; 881; 1172; 1483; 1490; 1175;
      1191; 1183; 1183; 1179; 1182; 1175;
      877; 881; 1183; 1479; 1487; 1181 ]%Z);
    ("BU_FIMA",
     Floats [
      7.058; 7.470; 7.657; 7.839; 7.730; 7.576;
      7.338; 7.726; 7.908; 8.081; 8.020; 7.716;
      3.498; 3.681; 3.741; 3.852; 3.842; 3.740;
      5.936; 6.229; 6.399; 6.517; 6.451; 6.237;
      5.485; 5.751; 5.985; 5.990; 5.983; 5.863;
      3.757; 4.027; 4.096; 4.217; 4.163; 3.958 ]%Q);
    ("TD_pct",
     Floats [
      92.89; 94.21; 93.43; 94.73; 95.21; 95.76;
      94.79; 94.36; 93.19; 92.00; 95.01; 95.49;
      89.09; 86.27; 89.02; 95.21; 95.91; 94.50;
      94.33; 95.45; 95.59; 93.48; 96.05; 95.60;
      87.30; 88.57; 88.19; 93.27; 94.07; 96.32;
      94.10; 95.43; 95.63; 95.14; 96.14; 95.01 ]%Q) ].

Definition df : DataFrame := data.

(** One row of [df], as [df.iterrows()] yields it. *)
Record row : Type := Row {
  Sample_ID : string;
  Target : Z;
  T_K : Z;
  BU_FIMA : Q;
  TD_pct : Q
}.

Fixpoint zip_rows (ids : list string) (tg ts : list Z) (bs ds : list Q) : list row :=
  match ids, tg, ts, bs, ds with
  | i :: ids', g :: tg', t :: ts', b :: bs', d :: ds' =>
      Row i g t b d :: zip_rows ids' tg' ts' bs' ds'
  | _, _, _, _, _ => []
  end.

Definition iterrows (d : DataFrame) : list row :=
  zip_rows (strs "Sample_ID" d) (ints "Target" d) (ints "T_K" d)
           (floats "BU_FIMA" d) (floats "TD_pct" d).

(** [storms_fgr], lines 78-80:
    [100.0 / (np.exp(0.0025 * (90.0 * TD**0.77 / BU**0.09 - T_K)) + 1.0)]. *)
Definition storms_fgr (T_K BU TD : R) : outcome pyval :=
  q <- py_div (py_mul (PyFloat 90) (py_pow TD 0.77)) (py_pow BU 0.09) ;;
  Ok (py_map (fun q => 100 / (exp (0.0025 * (q - T_K)) + 1)) q).

(** [rogozkin_fgr], lines 83-86:
    [T_C = T_K - 273.15; 3.05 * BU**1.92 * np.exp(-2086.0 / T_C)]. *)
Definition rogozkin_fgr (T_K BU : R) : outcome pyval :=
  let T_C := T_K - 273.15 in
  let a := py_mul (PyFloat 3.05) (py_pow BU 1.92) in
  e <- py_div (PyFloat (-2086)) (PyFloat T_C) ;;
  Ok (py_mul a (py_map exp e)).

(** Uncertainty magnitudes (lines 92-94) and finite-difference steps
    (lines 97-99). *)
Definition DELTA_T : R := 30.
Definition DELTA_BU : R := 0.5.
Definition DELTA_TD : R := 2.

Definition H_T : R := 1.
Definition H_BU : R := 0.01.
Definition H_TD : R := 0.1.

(** The local variables of one pass through the loop body, lines 113-134. *)
Record locals : Type := Locals {
  fgr_s : R;
  dfdT_s : R;
  dfdBU_s : R;
  dfdTD_s : R;
  var_T_s : R;
  var_BU_s : R;
  var_TD_s : R;
  var_total_s : R;
  sigma_s : R;
  fgr_r : R;
  dfdT_r : R;
  dfdBU_r : R;
  var_T_r : R;
  var_BU_r : R;
  var_total_r : R;
  sigma_r : R
}.

(** Lines 113-134, in the order of the source; [T], [BU], [TD] are the
    row's three numbers. *)
Definition loop_locals (T BU TD : R) : outcome locals :=
  (* --- Storms --- *)
  fgr_s <- real (storms_fgr T BU TD) ;;
  s_Tp <- real (storms_fgr (T + H_T) BU TD) ;;
  s_Tm <- real (storms_fgr (T - H_T) BU TD) ;;
  let dfdT_s := (s_Tp - s_Tm) / (2 * H_T) in
  s_BUp <- real (storms_fgr T (BU + H_BU) TD) ;;
  s_BUm <- real (storms_fgr T (BU - H_BU) TD) ;;
  let dfdBU_s := (s_BUp - s_BUm) / (2 * H_BU) in
  s_TDp <- real (storms_fgr T BU (TD + H_TD)) ;;
  s_TDm <- real (storms_fgr T BU (TD - H_TD)) ;;
  let dfdTD_s := (s_TDp - s_TDm) / (2 * H_TD) in
  let var_T_s := (dfdT_s * DELTA_T) ^ 2 in
  let var_BU_s := (dfdBU_s * DELTA_BU) ^ 2 in
  let var_TD_s := (dfdTD_s * DELTA_TD) ^ 2 in
  let var_total_s := var_T_s + var_BU_s + var_TD_s in
  let sigma_s := sqrt var_total_s in
  (* --- Rogozkin --- *)
  fgr_r <- real (rogozkin_fgr T BU) ;;
  r_Tp <- real (rogozkin_fgr (T + H_T) BU) ;;
  r_Tm <- real (rogozkin_fgr (T - H_T) BU) ;;
  let dfdT_r := (r_Tp - r_Tm) / (2 * H_T) in
  r_BUp <- real (rogozkin_fgr T (BU + H_BU)) ;;
  r_BUm <- real (rogozkin_fgr T (BU - H_BU)) ;;
  let dfdBU_r := (r_BUp - r_BUm) / (2 * H_BU) in
  let var_T_r := (dfdT_r * DELTA_T) ^ 2 in
  let var_BU_r := (dfdBU_r * DELTA_BU) ^ 2 in
  let var_total_r := var_T_r + var_BU_r in
  let sigma_r := sqrt var_total_r in
  Ok (Locals fgr_s dfdT_s dfdBU_s dfdTD_s
             var_T_s var_BU_s var_TD_s var_total_s sigma_s
             fgr_r dfdT_r dfdBU_r var_T_r var_BU_r var_total_r sigma_r).

(** The dictionary appended to [results], lines 136-155.  Its first five
    keys copy the row and are kept together in [specimen]. *)
Record entry : Type := Entry {
  specimen : row;
  FGR_Storms : R;
  sigma_Storms : R;
  Storms_var_T_pct : R;
  Storms_var_BU_pct : R;
  Storms_var_TD_pct : R;
  FGR_Rogozkin : R;
  sigma_Rogozkin : R;
  Rogozkin_var_T_pct : R;
  Rogozkin_var_BU_pct : R;
  Abs_Discrepancy : R
}.

Definition result_entry (r : row) (l : locals) : entry :=
  {| specimen := r;
     FGR_Storms := fgr_s l;
     sigma_Storms := sigma_s l;
     Storms_var_T_pct :=
       if Rlt_dec 0 (var_total_s l) then 100 * var_T_s l / var_total_s l else 0;
     Storms_var_BU_pct :=
       if Rlt_dec 0 (var_total_s l) then 100 * var_BU_s l / var_total_s l else 0;
     Storms_var_TD_pct :=
       if Rlt_dec 0 (var_total_s l) then 100 * var_TD_s l / var_total_s l else 0;
     FGR_Rogozkin := fgr_r l;
     sigma_Rogozkin := sigma_r l;
     Rogozkin_var_T_pct :=
       if Rlt_dec 0 (var_total_r l) then 100 * var_T_r l / var_total_r l else 0;
     Rogozkin_var_BU_pct :=
       if Rlt_dec 0 (var_total_r l) then 100 * var_BU_r l / var_total_r l else 0;
     Abs_Discrepancy := Rabs (fgr_s l - fgr_r l) |}.

(** One pass through [for _, row in df.iterrows()], lines 107-155. *)
Definition loop_body (r : row) : outcome entry :=
  l <- loop_locals (IZR (T_K r)) (Q2R (BU_FIMA r)) (Q2R (TD_pct r)) ;;
  Ok (result_entry r l).

(** The whole loop: an exception in one row ends it. *)
Definition results : outcome (list entry) := mapM loop_body (iterrows df).

End Sensitivity.

(* ================================================================= *)
(** ** scripts/figure14_fgr_comparison.py *)

Module Figure14.

(** The [data] dictionary, lines 24-58. *)
Definition data : list (string * column) :=
  [ ("Target",
     Ints (repeat 1%Z 6 ++ repeat 2%Z 6 ++ repeat 3%Z 6 ++ repeat 4%Z 6 ++ repeat 5%Z 6 ++ repeat 6%Z 6));
    ("Sample_ID",
     Strs [
      "RRN01-6"; "RRN01-5"; "RRN01-4"; "RRN01-3"; "RRN01-2"; "RRN01-1";
      "RRN02-6"; "RRN02-5"; "RRN02-4"; "RRN02-3"; "RRN02-2"; "RRN02-1";
      "RRN03-6"; "RRN03-5"; "RRN03-4"; "RRN03-3"; "RRN03-2"; "RRN03-1";
      "RRN04-6"; "RRN04-5"; "RRN04-4"; "RRN04-3"; "RRN04-2"; "RRN04-1";
      "RRN05-6"; "RRN05-5"; "RRN05-4"; "RRN05-3"; "RRN05-2"; "RRN05-1";
      "RRN06-6"; "RRN06-5"; "RRN06-4"; "RRN06-3"; "RRN06-2"; "RRN06-1" ]);
    ("BU",
     Floats [
      7.058; 7.470; 7.657; 7.839; 7.730; 7.576;
      7.338; 7.726; 7.908; 8.081; 8.020; 7.716;
      3.498; 3.681; 3.741; 3.852; 3.842; 3.740;
      5.936; 6.229; 6.399; 6.517; 6.451; 6.237;
      5.485; 5.751; 5.985; 5.990; 5.983; 5.863;
      3.757; 4.027; 4.096; 4.217; 4.163; 3.958 ]%Q);
    ("T",
     Ints [
      1190; 1190; 1181; 1183; 1163; 1182;
      877; 881; 1183; 1479; 1487; 1181;
      1184; 1187; 1181; 1172; 1187; 1181;
      875; 881; 1172; 1483; 1490; 1175;
      1191; 1183; 1183; 1179; 1182; 1175;
      877; 881; 1183; 1479; 1487; 1181 ]%Z);
    ("TD",
     Floats [
      92.89; 94.21; 93.43; 94.73; 95.21; 95.76;
      94.79; 94.36; 93.19; 92.00; 95.01; 95.49;
      89.09; 86.27; 89.02; 95.21; 95.91; 94.50;
      94.33; 95.45; 95.59; 93.48; 96.05; 95.60;
      87.30; 88.57; 88.19; 93.27; 94.07; 96.32;
      94.10; 95.43; 95.63; 95.14; 96.14; 95.01 ]%Q) ].

Definition df : DataFrame := data.

Record row : Type := Row {
  Target : Z;
  Sample_ID : string;
  BU : Q;
  T : Z;
  TD : Q
}.

Fixpoint zip_rows (tg : list Z) (ids : list string) (bs : list Q) (ts : list Z)
    (ds : list Q) : list row :=
  match tg, ids, bs, ts, ds with
  | g :: tg', i :: ids', b :: bs', t :: ts', d :: ds' =>
      Row g i b t d :: zip_rows tg' ids' bs' ts' ds'
  | _, _, _, _, _ => []
  end.

Definition rows (d : DataFrame) : list row :=
  zip_rows (ints "Target" d) (strs "Sample_ID" d) (floats "BU" d)
           (ints "T" d) (floats "TD" d).

(** [storms_fgr], lines 66-68. *)
Definition storms_fgr (T_K BU TD : R) : outcome pyval :=
  q <- py_div (py_mul (PyFloat 90) (py_pow TD 0.77)) (py_pow BU 0.09) ;;
  Ok (py_map (fun q => 100 / (exp (0.0025 * (q - T_K)) + 1)) q).

(** [rogozkin_fgr], lines 71-74. *)
Definition rogozkin_fgr (T_K BU : R) : outcome pyval :=
  let T_C := T_K - 273.15 in
  let a := py_mul (PyFloat 3.05) (py_pow BU 1.92) in
  e <- py_div (PyFloat (-2086)) (PyFloat T_C) ;;
  Ok (py_mul a (py_map exp e)).

(** Input uncertainties (lines 81-83) and steps (lines 86-88). *)
Definition dT : R := 30.
Definition dBU : R := 0.5.
Definition dTD : R := 2.

Definition h_T : R := 1.
Definition h_BU : R := 0.01.
Definition h_TD : R := 0.1.

(** [propagate_storms], lines 91-98. *)
Definition propagate_storms (T BU TD : R) : outcome (R * R) :=
  fgr <- real (storms_fgr T BU TD) ;;
  f_Tp <- real (storms_fgr (T + h_T) BU TD) ;;
  f_Tm <- real (storms_fgr (T - h_T) BU TD) ;;
  let df_dT := (f_Tp - f_Tm) / (2 * h_T) in
  f_BUp <- real (storms_fgr T (BU + h_BU) TD) ;;
  f_BUm <- real (storms_fgr T (BU - h_BU) TD) ;;
  let df_dBU := (f_BUp - f_BUm) / (2 * h_BU) in
  f_TDp <- real (storms_fgr T BU (TD + h_TD)) ;;
  f_TDm <- real (storms_fgr T BU (TD - h_TD)) ;;
  let df_dTD := (f_TDp - f_TDm) / (2 * h_TD) in
  let sigma := sqrt ((df_dT * dT) ^ 2 + (df_dBU * dBU) ^ 2 + (df_dTD * dTD) ^ 2) in
  Ok (fgr, sigma).

(** [propagate_rogozkin], lines 101-107. *)
Definition propagate_rogozkin (T BU : R) : outcome (R * R) :=
  fgr <- real (rogozkin_fgr T BU) ;;
  f_Tp <- real (rogozkin_fgr (T + h_T) BU) ;;
  f_Tm <- real (rogozkin_fgr (T - h_T) BU) ;;
  let df_dT := (f_Tp - f_Tm) / (2 * h_T) in
  f_BUp <- real (rogozkin_fgr T (BU + h_BU)) ;;
  f_BUm <- real (rogozkin_fgr T (BU - h_BU)) ;;
  let df_dBU := (f_BUp - f_BUm) / (2 * h_BU) in
  let sigma := sqrt ((df_dT * dT) ^ 2 + (df_dBU * dBU) ^ 2) in
  Ok (fgr, sigma).

(** Lines 109-110: the two functions given to [df.apply(..., axis=1)]. *)
Definition storms_lambda (r : row) : outcome (R * R) :=
  propagate_storms (IZR (T r)) (Q2R (BU r)) (Q2R (TD r)).

Definition rogozkin_lambda (r : row) : outcome (R * R) :=
  propagate_rogozkin (IZR (T r)) (Q2R (BU r)).

Definition storms_results : outcome (list (R * R)) :=
  mapM storms_lambda (rows df).

Definition rogozkin_results : outcome (list (R * R)) :=
  mapM rogozkin_lambda (rows df).

End Figure14.

(* ================================================================= *)
(** ** scripts/figure15_swelling_ross.py *)

Module Figure15.

(** The [data] dictionary, lines 34-68. *)
Definition data : list (string * column) :=
  [ ("Target",
     Ints (repeat 1%Z 6 ++ repeat 2%Z 6 ++ repeat 3%Z 6 ++ repeat 4%Z 6 ++ repeat 5%Z 6 ++ repeat 6%Z 6));
    ("Sample_ID",
     Strs [
      "RRN01-6"; "RRN01-5"; "RRN01-4"; "RRN01-3"; "RRN01-2"; "RRN01-1";
      "RRN02-6"; "RRN02-5"; "RRN02-4"; "RRN02-3"; "RRN02-2"; "RRN02-1";
      "RRN03-6"; "RRN03-5"; "RRN03-4"; "RRN03-3"; "RRN03-2"; "RRN03-1";
      "RRN04-6"; "RRN04-5"; "RRN04-4"; "RRN04-3"; "RRN04-2"; "RRN04-1";
      "RRN05-6"; "RRN05-5"; "RRN05-4"; "RRN05-3"; "RRN05-2"; "RRN05-1";
      "RRN06-6"; "RRN06-5"; "RRN06-4"; "RRN06-3"; "RRN06-2"; "RRN06-1" ]);
    ("BU",
     Floats [
      7.058; 7.470; 7.657; 7.839; 7.730; 7.576;
      7.338; 7.726; 7.908; 8.081; 8.020; 7.716;
      3.498; 3.681; 3.741; 3.852; 3.842; 3.740;
      5.936; 6.229; 6.399; 6.517; 6.451; 6.237;
      5.485; 5.751; 5.985; 5.990; 5.983; 5.863;
      3.757; 4.027; 4.096; 4.217; 4.163; 3.958 ]%Q);
    ("T",
     Ints [
      1190; 1190; 1181; 1183; 1163; 1182;
      877; 881; 1183; 1479; 1487; 1181;
      1184; 1187; 1181; 1172; 1187; 1181;
      875; 881; 1172; 1483; 1490; 1175;
      1191; 1183; 1183; 1179; 1182; 1175;
      877; 881; 1183; 1479; 1487; 1181 ]%Z);
    ("TD",
     Floats [
      92.89; 94.21; 93.43; 94.73; 95.21; 95.76;
      94.79; 94.36; 93.19; 92.00; 95.01; 95.49;
      89.09; 86.27; 89.02; 95.21; 95.91; 94.50;
      94.33; 95.45; 95.59; 93.48; 96.05; 95.60;
      87.30; 88.57; 88.19; 93.27; 94.07; 96.32;
      94.10; 95.43; 95.63; 95.14; 96.14; 95.01 ]%Q) ].

Definition df : DataFrame := data.

Record row : Type := Row {
  Target : Z;
  Sample_ID : string;
  BU : Q;
  T : Z;
  TD : Q
}.

Fixpoint zip_rows (tg : list Z) (ids : list string) (bs : list Q) (ts : list Z)
    (ds : list Q) : list row :=
  match tg, ids, bs, ts, ds with
  | g :: tg', i :: ids', b :: bs', t :: ts', d :: ds' =>
      Row g i b t d :: zip_rows tg' ids' bs' ts' ds'
  | _, _, _, _, _ => []
  end.

Definition rows (d : DataFrame) : list row :=
  zip_rows (ints "Target" d) (strs "Sample_ID" d) (floats "BU" d)
           (ints "T" d) (floats "TD" d).

(** [ross_swelling], lines 76-94:
    [4.7e-11 * T_K**3.12 * BU**0.83 * TD**0.5]. *)
Definition ross_swelling (T_K BU TD : R) : pyval :=
  py_mul (py_mul (py_mul (PyFloat 4.7e-11) (py_pow T_K 3.12)) (py_pow BU 0.83))
         (py_pow TD 0.5).

(** Lines 100-102: the [Swelling_Ross] column. *)
Definition Swelling_Ross : list pyval :=
  map (fun r => ross_swelling (IZR (T r)) (Q2R (BU r)) (Q2R (TD r))) (rows df).

End Figure15.

(* ================================================================= *)
(** ** scripts/figure12_irradiation_conditions.py *)

Module Figure12.

(** The [data] dictionary, lines 21-55. *)
Definition data : list (string * column) :=
  [ ("Target",
     Ints (repeat 1%Z 6 ++ repeat 2%Z 6 ++ repeat 3%Z 6 ++ repeat 4%Z 6 ++ repeat 5%Z 6 ++ repeat 6%Z 6));
    ("Sample_ID",
     Strs [
      "RRN01-6"; "RRN01-5"; "RRN01-4"; "RRN01-3"; "RRN01-2"; "RRN01-1";
      "RRN02-6"; "RRN02-5"; "RRN02-4"; "RRN02-3"; "RRN02-2"; "RRN02-1";
      "RRN03-6"; "RRN03-5"; "RRN03-4"; "RRN03-3"; "RRN03-2"; "RRN03-1";
      "RRN04-6"; "RRN04-5"; "RRN04-4"; "RRN04-3"; "RRN04-2"; "RRN04-1";
      "RRN05-6"; "RRN05-5"; "RRN05-4"; "RRN05-3"; "RRN05-2"; "RRN05-1";
      "RRN06-6"; "RRN06-5"; "RRN06-4"; "RRN06-3"; "RRN06-2"; "RRN06-1" ]);
    ("Burnup_FIMA",
     Floats [
      7.058; 7.470; 7.657; 7.839; 7.730; 7.576;
      7.338; 7.726; 7.908; 8.081; 8.020; 7.716;
      3.498; 3.681; 3.741; 3.852; 3.842; 3.740;
      5.936; 6.229; 6.399; 6.517; 6.451; 6.237;
      5.485; 5.751; 5.985; 5.990; 5.983; 5.863;
      3.757; 4.027; 4.096; 4.217; 4.163; 3.958 ]%Q);
    ("Temperature_K",
     Ints [
      1190; 1190; 1181; 1183; 1163; 1182;
      877; 881; 1183; 1479; 1487; 1181;
      1184; 1187; 1181; 1172; 1187; 1181;
      875; 881; 1172; 1483; 1490; 1175;
      1191; 1183; 1183; 1179; 1182; 1175;
      877; 881; 1183; 1479; 1487; 1181 ]%Z);
    ("Density_TD",
     Floats [
      92.89; 94.21; 93.43; 94.73; 95.21; 95.76;
      94.79; 94.36; 93.19; 92.00; 95.01; 95.49;
      89.09; 86.27; 89.02; 95.21; 95.91; 94.50;
      94.33; 95.45; 95.59; 93.48; 96.05; 95.60;
      87.30; 88.57; 88.19; 93.27; 94.07; 96.32;
      94.10; 95.43; 95.63; 95.14; 96.14; 95.01 ]%Q) ].

Definition df : DataFrame := data.

End Figure12.

(* ================================================================= *)
(** ** The documented formulas and the propagation recipe

    These follow the specification's wording; the theorems below compare
    them with the code. *)

(** Form A: [100 / (exp(k (c1 rho^a / BU^b - T)) + 1)] with [k = 0.0025],
    [c1 = 90], [a = 0.77], [b = 0.09]. *)
Definition form_A (T BU rho : R) : R :=
  100 / (exp (0.0025 * (90 * Rpower rho 0.77 / Rpower BU 0.09 - T)) + 1).

(** Form B: [c2 BU^p exp(-E / (T - 273.15))] with [c2 = 3.05], [p = 1.92],
    [E = 2086]. *)
Definition form_B (T BU : R) : R :=
  3.05 * Rpower BU 1.92 * exp (- 2086 / (T - 273.15)).

(** Ross: [4.7e-11 T^3.12 BU^0.83 rho^0.5]. *)
Definition ross (T BU rho : R) : R :=
  4.7e-11 * Rpower T 3.12 * Rpower BU 0.83 * Rpower rho 0.5.

(** Centered difference [(f(x+h) - f(x-h)) / (2h)]. *)
Definition central_difference (f : R -> R) (x h : R) : R :=
  (f (x + h) - f (x - h)) / (2 * h).

(** Variance term of one input: [(df/dx * Delta x)^2]. *)
Definition variance_term (d delta : R) : R := (d * delta) ^ 2.

(** Fractional contribution [100 v / V], and [0] when [V = 0]. *)
Definition contribution (v V : R) : R :=
  if Req_dec_T V 0 then 0 else 100 * v / V.

(** The specimen table of a script, whatever its column names. *)
Record table : Type := Table {
  tab_ids : list string;
  tab_targets : list Z;
  tab_T : list Z;
  tab_BU : list Q;
  tab_TD : list Q
}.

Definition sensitivity_table : table :=
  Table (strs "Sample_ID" Sensitivity.df) (ints "Target" Sensitivity.df)
        (ints "T_K" Sensitivity.df) (floats "BU_FIMA" Sensitivity.df)
        (floats "TD_pct" Sensitivity.df).

Definition figure14_table : table :=
  Table (strs "Sample_ID" Figure14.df) (ints "Target" Figure14.df)
        (ints "T" Figure14.df) (floats "BU" Figure14.df)
        (floats "TD" Figure14.df).

Definition figure15_table : table :=
  Table (strs "Sample_ID" Figure15.df) (ints "Target" Figure15.df)
        (ints "T" Figure15.df) (floats "BU" Figure15.df)
        (floats "TD" Figure15.df).

Definition figure12_table : table :=
  Table (strs "Sample_ID" Figure12.df) (ints "Target" Figure12.df)
        (ints "Temperature_K" Figure12.df) (floats "Burnup_FIMA" Figure12.df)
        (floats "Density_TD" Figure12.df).

(** The locals that the propagation recipe prescribes at [(T, BU, TD)]:
    centered differences of the documented formulas, one input perturbed
    at a time, then variance terms, their sum and its square root. *)
Definition recipe_locals (T BU TD : R) : Sensitivity.locals :=
  let dT_s := central_difference (fun t => form_A t BU TD) T 1 in
  let dBU_s := central_difference (fun b => form_A T b TD) BU 0.01 in
  let dTD_s := central_difference (fun d => form_A T BU d) TD 0.1 in
  let dT_r := central_difference (fun t => form_B t BU) T 1 in
  let dBU_r := central_difference (fun b => form_B T b) BU 0.01 in
  let V_s := variance_term dT_s 30 + variance_term dBU_s 0.5 + variance_term dTD_s 2 in
  let V_r := variance_term dT_r 30 + variance_term dBU_r 0.5 in
  Sensitivity.Locals
    (form_A T BU TD) dT_s dBU_s dTD_s
    (variance_term dT_s 30) (variance_term dBU_s 0.5) (variance_term dTD_s 2)
    V_s (sqrt V_s)
    (form_B T BU) dT_r dBU_r
    (variance_term dT_r 30) (variance_term dBU_r 0.5)
    V_r (sqrt V_r).

(** The recipe at the first specimen, RRN01-6. *)
Definition locals_RRN01_6 : Sensitivity.locals := recipe_locals 1190 7.058 92.89.

(** The first row of the table and the entry the recipe gives for it. *)
Definition row_RRN01_6 : Sensitivity.row :=
  Sensitivity.Row "RRN01-6" 1 1190 7.058 92.89.

Definition entry_RRN01_6 : Sensitivity.entry :=
  Sensitivity.result_entry row_RRN01_6 locals_RRN01_6.

(** Strict comparison of rationals, as a boolean. *)
Definition Qltb (x y : Q) : bool :=
  match (x ?= y)%Q with Lt => true | _ => false end.

(** A specimen whose perturbed points [x - h] all stay inside the domain
    [T > 273.15], [BU > 0], [TD > 0]. *)
Definition perturbable (t : Z) (bu td : Q) : bool :=
  Qltb (273.15 + 1) (inject_Z t) && Qltb 0.01 bu && Qltb 0.1 td.

(* ================================================================= *)
(** ** scripts/sensitivity_analysis.py, lines 176-204: the regime summary *)

Module Regimes.

(** [temp_regime], lines 184-190; it is applied to the integer column
    [T_K] of the results. *)
Definition temp_regime (T : Z) : string :=
  if (T <? 1000)%Z then "Low (~873 K)"
  else if (T <? 1350)%Z then "Intermediate (~1,173 K)"
  else "High (~1,473 K)".

(** The regimes the summary loop runs over, line 194. *)
Definition regimes : list string :=
  ["Low (~873 K)"; "Intermediate (~1,173 K)"; "High (~1,473 K)"].

(** [res_df[res_df["Regime"] == regime]], line 195. *)
Definition sub_frame (es : list Sensitivity.entry) (regime : string)
    : list Sensitivity.entry :=
  filter (fun e => String.eqb
                     (temp_regime (Sensitivity.T_K (Sensitivity.specimen e)))
                     regime) es.




End Regimes.

(* ================================================================= *)
(** ** The plotting loops over targets

    Figures 12, 14 and 15 share the loop header
    [for target_id in sorted(df["Target"].unique()):
       subset = df[df["Target"] == target_id]]
    (figure 12 lines 68-69, figure 14 lines 134-135, figure 15 lines 116-117
    and 136-137), and look the marker, colour and label of each target up in
    dictionaries keyed by the target number. *)

Module Grouping.

(** [Series.unique()]: the distinct values, in order of first appearance. *)
Fixpoint unique_from (seen l : list Z) : list Z :=
  match l with
  | [] => []
  | x :: t =>
      if existsb (Z.eqb x) seen then unique_from seen t
      else x :: unique_from (x :: seen) t
  end.

Definition unique (l : list Z) : list Z := unique_from [] l.

(** [sorted(...)] on integers: ascending order. *)
Fixpoint insert_asc (x : Z) (l : list Z) : list Z :=
  match l with
  | [] => [x]
  | y :: t => if (x <=? y)%Z then x :: y :: t else y :: insert_asc x t
  end.

Definition sorted (l : list Z) : list Z := fold_right insert_asc [] l.

(** The loop header: each target in ascending order with its sub-frame,
    the rows of that target in their original order. *)
Definition target_groups (A : Type) (target : A -> Z) (rows : list A)
    : list (Z * list A) :=
  map (fun target_id =>
         (target_id, filter (fun r => Z.eqb (target r) target_id) rows))
      (sorted (unique (map target rows))).



End Grouping.

(** *** scripts/figure12_irradiation_conditions.py, lines 57-92 *)

Module Figure12Plot.

Record row : Type := Row {
  Target : Z;
  Sample_ID : string;
  Burnup_FIMA : Q;
  Temperature_K : Z;
  Density_TD : Q
}.

Fixpoint zip_rows (tg : list Z) (ids : list string) (bs : list Q) (ts : list Z)
    (ds : list Q) : list row :=
  match tg, ids, bs, ts, ds with
  | g :: tg', i :: ids', b :: bs', t :: ts', d :: ds' =>
      Row g i b t d :: zip_rows tg' ids' bs' ts' ds'
  | _, _, _, _, _ => []
  end.

Definition rows (d : DataFrame) : list row :=
  zip_rows (ints "Target" d) (strs "Sample_ID" d) (floats "Burnup_FIMA" d)
           (ints "Temperature_K" d) (floats "Density_TD" d).

(** Lines 62-64. *)
Definition target_labels : list (Z * string) :=
  [ (1, "RRN01"); (2, "RRN02"); (3, "RRN03");
    (4, "RRN04"); (5, "RRN05"); (6, "RRN06") ]%Z.

Definition markers : list (Z * string) :=
  [ (1, "o"); (2, "s"); (3, "^"); (4, "D"); (5, "v"); (6, "H") ]%Z.

(** The data-dependent arguments of one [ax.scatter] call, lines 70-82. *)
Record scatter : Type := Scatter {
  xs : list Q;
  ys : list Z;
  c : list Q;
  marker : string;
  label : string
}.



End Figure12Plot.

(** *** scripts/figure15_swelling_ross.py, lines 100-151 *)

Module Figure15Plot.


(** Lines 107-111. *)
Definition target_labels : list (Z * string) :=
  [ (1, "RNN01"); (2, "RNN02"); (3, "RNN03");
    (4, "RNN04"); (5, "RNN05"); (6, "RNN06") ]%Z.

Definition markers : list (Z * string) :=
  [ (1, "o"); (2, "s"); (3, "^"); (4, "D"); (5, "v"); (6, "H") ]%Z.


(** The data-dependent arguments of one [scatter] call; [X] is the type of
    the abscissa, burnup in panel (a) and temperature in panel (b). *)
Record scatter (X : Type) : Type := Scatter {
  xs : list X;
  ys : list pyval;
  marker : string;
  color : string;
  label : string
}.





End Figure15Plot.

(* ================================================================= *)
(** ** The specimen tables *)

(** C8: the four scripts embed the same specimen table: identifiers,
    targets, temperatures, burnups and densities are entry-wise equal, each
    column has 36 entries, and the targets are 1..6, six consecutive
    specimens each. *)
Theorem datasets_identical :
  sensitivity_table = figure14_table /\
  figure14_table = figure15_table /\
  figure15_table = figure12_table /\
  List.length (tab_ids sensitivity_table) = 36%nat /\
  List.length (tab_targets sensitivity_table) = 36%nat /\
  List.length (tab_T sensitivity_table) = 36%nat /\
  List.length (tab_BU sensitivity_table) = 36%nat /\
  List.length (tab_TD sensitivity_table) = 36%nat /\
  tab_targets sensitivity_table
    = flat_map (fun k => repeat k 6) [1; 2; 3; 4; 5; 6]%Z /\
  NoDup (tab_ids sensitivity_table).
Proof.
  repeat split; try reflexivity.
  vm_compute.
  repeat (constructor; [ simpl; intuition discriminate | ]).
  constructor.
Qed.

(* ================================================================= *)
(** ** Python arithmetic: the cases of [**] and [/] *)

Lemma Rpower_pos (x y : R) : 0 < Rpower x y.
Proof. unfold Rpower. apply exp_pos. Qed.

Lemma py_pow_pos (x y : R) : 0 < x -> py_pow x y = PyFloat (Rpower x y).
Proof.
  intros Hx. unfold py_pow.
  destruct (Rlt_dec 0 x) as [_ | Hn]; [reflexivity | contradiction].
Qed.

Lemma py_pow_zero (y : R) : py_pow 0 y = PyFloat 0.
Proof.
  unfold py_pow.
  destruct (Rlt_dec 0 0) as [H | _]; [lra | ].
  destruct (Req_dec_T 0 0) as [_ | H]; [reflexivity | lra].
Qed.

Lemma py_pow_neg (x y : R) : x < 0 -> py_pow x y = PyComplex.
Proof.
  intros Hx. unfold py_pow.
  destruct (Rlt_dec 0 x) as [H | _]; [lra | ].
  destruct (Req_dec_T x 0) as [H | _]; [lra | reflexivity].
Qed.


Lemma py_div_by_float (a : pyval) (d : R) :
  d <> 0 -> py_div a (PyFloat d) = Ok (py_map (fun n => n / d) a).
Proof.
  intros Hd. unfold py_div.
  destruct (Req_dec_T d 0) as [H | _]; [contradiction | reflexivity].
Qed.

Lemma py_div_by_zero (a : pyval) : py_div a (PyFloat 0) = Raise ZeroDivisionError.
Proof.
  unfold py_div. destruct (Req_dec_T 0 0) as [_ | H]; [reflexivity | lra].
Qed.

(** A division raises exactly when the divisor is the float zero. *)
Lemma py_div_raises (a b : pyval) (e : exn) :
  py_div a b = Raise e <-> b = PyFloat 0.
Proof.
  split.
  - destruct b as [d | ]; simpl; [ | discriminate].
    destruct (Req_dec_T d 0) as [-> | _]; [reflexivity | discriminate].
  - intros ->. destruct e. apply py_div_by_zero.
Qed.

Lemma py_div_never_beyond (a b : pyval) : py_div a b <> Beyond.
Proof.
  destruct b as [d | ]; simpl; [ | discriminate].
  destruct (Req_dec_T d 0); discriminate.
Qed.

(* ================================================================= *)
(** ** The two copies of each correlation agree *)

Lemma storms_fgr_copies : Figure14.storms_fgr = Sensitivity.storms_fgr.
Proof. reflexivity. Qed.

Lemma rogozkin_fgr_copies : Figure14.rogozkin_fgr = Sensitivity.rogozkin_fgr.
Proof. reflexivity. Qed.

(* ================================================================= *)
(** ** Form A (Storms) *)

Lemma storms_fgr_in_domain (T BU TD : R) :
  0 < BU -> 0 < TD ->
  Sensitivity.storms_fgr T BU TD = Ok (PyFloat (form_A T BU TD)).
Proof.
  intros HBU HTD. unfold Sensitivity.storms_fgr, form_A.
  rewrite (py_pow_pos 0.77 HTD), (py_pow_pos 0.09 HBU). simpl py_mul.
  rewrite py_div_by_float by (apply Rgt_not_eq, Rpower_pos).
  reflexivity.
Qed.

Lemma storms_fgr_zero_burnup (T TD : R) :
  Sensitivity.storms_fgr T 0 TD = Raise ZeroDivisionError.
Proof.
  unfold Sensitivity.storms_fgr.
  rewrite py_pow_zero, py_div_by_zero. reflexivity.
Qed.


Lemma storms_fgr_negative_burnup (T BU TD : R) :
  BU < 0 -> Sensitivity.storms_fgr T BU TD = Ok PyComplex.
Proof.
  intros H. unfold Sensitivity.storms_fgr.
  rewrite (py_pow_neg 0.09 H). reflexivity.
Qed.




(* ================================================================= *)
(** ** Form B (Rogozkin) *)

Lemma rogozkin_fgr_in_domain (T BU : R) :
  0 < BU -> T <> 273.15 ->
  Sensitivity.rogozkin_fgr T BU = Ok (PyFloat (form_B T BU)).
Proof.
  intros HBU HT. unfold Sensitivity.rogozkin_fgr, form_B.
  rewrite (py_pow_pos 1.92 HBU). simpl py_mul.
  rewrite py_div_by_float by lra.
  reflexivity.
Qed.

Lemma rogozkin_fgr_zero_celsius (BU : R) :
  Sensitivity.rogozkin_fgr 273.15 BU = Raise ZeroDivisionError.
Proof.
  unfold Sensitivity.rogozkin_fgr.
  replace (273.15 - 273.15) with 0 by lra.
  rewrite py_div_by_zero. reflexivity.
Qed.





(* ================================================================= *)
(** ** What the correlations return *)

(** C3: on every valid input (burnup and density positive) both copies of
    [storms_fgr] return exactly the Form A value
    [100 / (exp(0.0025 (90 rho^0.77 / BU^0.09 - T)) + 1)]; in particular at
    T = 1190 K, BU = 7.058 %FIMA, rho = 92.89 %TD the returned value is the
    one obtained by substituting into the formula. *)
Theorem storms_fgr_is_form_A :
  (forall T BU TD : R, 0 < BU -> 0 < TD ->
     Sensitivity.storms_fgr T BU TD = Ok (PyFloat (form_A T BU TD)) /\
     Figure14.storms_fgr T BU TD = Ok (PyFloat (form_A T BU TD))) /\
  Sensitivity.storms_fgr 1190 7.058 92.89
    = Ok (PyFloat (100 / (exp (0.0025 *
        (90 * Rpower 92.89 0.77 / Rpower 7.058 0.09 - 1190)) + 1))) /\
  Figure14.storms_fgr 1190 7.058 92.89
    = Ok (PyFloat (100 / (exp (0.0025 *
        (90 * Rpower 92.89 0.77 / Rpower 7.058 0.09 - 1190)) + 1))).
Proof.
  assert (G : forall T BU TD : R, 0 < BU -> 0 < TD ->
     Sensitivity.storms_fgr T BU TD = Ok (PyFloat (form_A T BU TD)) /\
     Figure14.storms_fgr T BU TD = Ok (PyFloat (form_A T BU TD))).
  { intros T BU TD HBU HTD. rewrite storms_fgr_copies.
    split; apply storms_fgr_in_domain; assumption. }
  split; [exact G | ].
  destruct (G 1190 7.058 92.89) as [A B]; [lra | lra | ].
  split; [exact A | exact B].
Qed.





(* ================================================================= *)
(** ** Reading a successful run backwards *)

Lemma bind_Ok_inv (A B : Type) (m : outcome A) (k : A -> outcome B) (b : B) :
  bind m k = Ok b -> exists a : A, m = Ok a /\ k a = Ok b.
Proof.
  destruct m as [a | e | ]; simpl; intros H; try discriminate.
  exists a. split; [reflexivity | exact H].
Qed.

Lemma real_Ok_inv (o : outcome pyval) (x : R) :
  real o = Ok x -> o = Ok (PyFloat x).
Proof.
  destruct o as [[r | ] | e | ]; simpl; intros H; try discriminate.
  injection H as ->. reflexivity.
Qed.

Lemma real_float (o : outcome pyval) (x : R) :
  o = Ok (PyFloat x) -> real o = Ok x.
Proof. intros ->. reflexivity. Qed.

(** Peel the leading binds off a hypothesis [H : bind .. = Ok _]. *)
Ltac peel H :=
  repeat (let x := fresh "x" in
          let Hx := fresh "Hx" in
          apply bind_Ok_inv in H; destruct H as (x & Hx & H); cbv zeta in H).

(** What a successful pass through the loop body evaluated. *)
Lemma loop_locals_Ok_inv (T BU TD : R) (l : Sensitivity.locals) :
  Sensitivity.loop_locals T BU TD = Ok l ->
  exists s0 s1 s2 s3 s4 s5 s6 r0 r1 r2 r3 r4 : R,
    Sensitivity.storms_fgr T BU TD = Ok (PyFloat s0) /\
    Sensitivity.storms_fgr (T + Sensitivity.H_T) BU TD = Ok (PyFloat s1) /\
    Sensitivity.storms_fgr (T - Sensitivity.H_T) BU TD = Ok (PyFloat s2) /\
    Sensitivity.storms_fgr T (BU + Sensitivity.H_BU) TD = Ok (PyFloat s3) /\
    Sensitivity.storms_fgr T (BU - Sensitivity.H_BU) TD = Ok (PyFloat s4) /\
    Sensitivity.storms_fgr T BU (TD + Sensitivity.H_TD) = Ok (PyFloat s5) /\
    Sensitivity.storms_fgr T BU (TD - Sensitivity.H_TD) = Ok (PyFloat s6) /\
    Sensitivity.rogozkin_fgr T BU = Ok (PyFloat r0) /\
    Sensitivity.rogozkin_fgr (T + Sensitivity.H_T) BU = Ok (PyFloat r1) /\
    Sensitivity.rogozkin_fgr (T - Sensitivity.H_T) BU = Ok (PyFloat r2) /\
    Sensitivity.rogozkin_fgr T (BU + Sensitivity.H_BU) = Ok (PyFloat r3) /\
    Sensitivity.rogozkin_fgr T (BU - Sensitivity.H_BU) = Ok (PyFloat r4) /\
    Sensitivity.fgr_s l = s0 /\
    Sensitivity.dfdT_s l = (s1 - s2) / (2 * Sensitivity.H_T) /\
    Sensitivity.dfdBU_s l = (s3 - s4) / (2 * Sensitivity.H_BU) /\
    Sensitivity.dfdTD_s l = (s5 - s6) / (2 * Sensitivity.H_TD) /\
    Sensitivity.var_T_s l = (Sensitivity.dfdT_s l * Sensitivity.DELTA_T) ^ 2 /\
    Sensitivity.var_BU_s l = (Sensitivity.dfdBU_s l * Sensitivity.DELTA_BU) ^ 2 /\
    Sensitivity.var_TD_s l = (Sensitivity.dfdTD_s l * Sensitivity.DELTA_TD) ^ 2 /\
    Sensitivity.var_total_s l
      = Sensitivity.var_T_s l + Sensitivity.var_BU_s l + Sensitivity.var_TD_s l /\
    Sensitivity.sigma_s l = sqrt (Sensitivity.var_total_s l) /\
    Sensitivity.fgr_r l = r0 /\
    Sensitivity.dfdT_r l = (r1 - r2) / (2 * Sensitivity.H_T) /\
    Sensitivity.dfdBU_r l = (r3 - r4) / (2 * Sensitivity.H_BU) /\
    Sensitivity.var_T_r l = (Sensitivity.dfdT_r l * Sensitivity.DELTA_T) ^ 2 /\
    Sensitivity.var_BU_r l = (Sensitivity.dfdBU_r l * Sensitivity.DELTA_BU) ^ 2 /\
    Sensitivity.var_total_r l = Sensitivity.var_T_r l + Sensitivity.var_BU_r l /\
    Sensitivity.sigma_r l = sqrt (Sensitivity.var_total_r l).
Proof.
  intros H. unfold Sensitivity.loop_locals in H. peel H.
  injection H as <-.
  repeat match goal with
         | E : real _ = Ok _ |- _ => apply real_Ok_inv in E
         end.
  do 12 eexists. simpl.
  repeat (split; [eassumption || reflexivity | ]). reflexivity.
Qed.

(* ================================================================= *)
(** ** The loop body on the domain *)

Lemma loop_locals_in_domain (T BU TD : R) :
  Sensitivity.H_BU < BU -> Sensitivity.H_TD < TD -> 273.15 + Sensitivity.H_T < T ->
  Sensitivity.loop_locals T BU TD = Ok (recipe_locals T BU TD).
Proof.
  unfold Sensitivity.H_BU, Sensitivity.H_TD, Sensitivity.H_T.
  intros HBU HTD HT. unfold Sensitivity.loop_locals.
  unfold Sensitivity.H_BU, Sensitivity.H_TD, Sensitivity.H_T.
  rewrite !storms_fgr_in_domain by lra.
  rewrite !rogozkin_fgr_in_domain by lra.
  reflexivity.
Qed.

Lemma propagate_storms_in_domain (T BU TD : R) :
  Figure14.h_BU < BU -> Figure14.h_TD < TD ->
  Figure14.propagate_storms T BU TD
  = Ok (form_A T BU TD,
        sqrt (variance_term (central_difference (fun t => form_A t BU TD) T 1) 30
              + variance_term (central_difference (fun b => form_A T b TD) BU 0.01) 0.5
              + variance_term (central_difference (fun d => form_A T BU d) TD 0.1) 2)).
Proof.
  unfold Figure14.h_BU, Figure14.h_TD.
  intros HBU HTD. unfold Figure14.propagate_storms.
  unfold Figure14.h_BU, Figure14.h_TD, Figure14.h_T.
  rewrite storms_fgr_copies.
  rewrite !storms_fgr_in_domain by lra.
  reflexivity.
Qed.

Lemma propagate_rogozkin_in_domain (T BU : R) :
  Figure14.h_BU < BU -> 273.15 + Figure14.h_T < T ->
  Figure14.propagate_rogozkin T BU
  = Ok (form_B T BU,
        sqrt (variance_term (central_difference (fun t => form_B t BU) T 1) 30
              + variance_term (central_difference (fun b => form_B T b) BU 0.01) 0.5)).
Proof.
  unfold Figure14.h_BU, Figure14.h_T.
  intros HBU HT. unfold Figure14.propagate_rogozkin.
  unfold Figure14.h_BU, Figure14.h_T.
  rewrite rogozkin_fgr_copies.
  rewrite !rogozkin_fgr_in_domain by lra.
  reflexivity.
Qed.

(* ================================================================= *)
(** ** Finite differences and variance composition *)

(** C5: each partial derivative is the centered difference
    [(f(x+h) - f(x-h)) / (2h)] of the correlation in one variable, the other
    inputs staying at the specimen's values, with the steps 1 K, 0.01 %FIMA
    and 0.1 %TD: in the loop of [sensitivity_analysis.py] and, inside the
    returned sigma, in [propagate_storms] and [propagate_rogozkin]. *)
Theorem derivatives_are_central_differences (T BU TD : R) :
  Sensitivity.H_BU < BU -> Sensitivity.H_TD < TD -> 273.15 + Sensitivity.H_T < T ->
  (Sensitivity.H_T = 1 /\ Sensitivity.H_BU = 0.01 /\ Sensitivity.H_TD = 0.1) /\
  (Figure14.h_T = 1 /\ Figure14.h_BU = 0.01 /\ Figure14.h_TD = 0.1) /\
  (exists l : Sensitivity.locals,
     Sensitivity.loop_locals T BU TD = Ok l /\
     Sensitivity.dfdT_s l
       = central_difference (fun t => form_A t BU TD) T Sensitivity.H_T /\
     Sensitivity.dfdBU_s l
       = central_difference (fun b => form_A T b TD) BU Sensitivity.H_BU /\
     Sensitivity.dfdTD_s l
       = central_difference (fun d => form_A T BU d) TD Sensitivity.H_TD /\
     Sensitivity.dfdT_r l
       = central_difference (fun t => form_B t BU) T Sensitivity.H_T /\
     Sensitivity.dfdBU_r l
       = central_difference (fun b => form_B T b) BU Sensitivity.H_BU) /\
  Figure14.propagate_storms T BU TD
  = Ok (form_A T BU TD,
        sqrt ((central_difference (fun t => form_A t BU TD) T Figure14.h_T
               * Figure14.dT) ^ 2
              + (central_difference (fun b => form_A T b TD) BU Figure14.h_BU
                 * Figure14.dBU) ^ 2
              + (central_difference (fun d => form_A T BU d) TD Figure14.h_TD
                 * Figure14.dTD) ^ 2)) /\
  Figure14.propagate_rogozkin T BU
  = Ok (form_B T BU,
        sqrt ((central_difference (fun t => form_B t BU) T Figure14.h_T
               * Figure14.dT) ^ 2
              + (central_difference (fun b => form_B T b) BU Figure14.h_BU
                 * Figure14.dBU) ^ 2)).
Proof.
  intros HBU HTD HT.
  split; [repeat split | ]. split; [repeat split | ].
  split; [ | split].
  - exists (recipe_locals T BU TD).
    split; [apply loop_locals_in_domain; assumption | ].
    repeat split.
  - apply propagate_storms_in_domain; assumption.
  - apply propagate_rogozkin_in_domain; assumption.
Qed.

Lemma derivatives_are_central_differences_witness :
  (Sensitivity.H_T = 1 /\ Sensitivity.H_BU = 0.01 /\ Sensitivity.H_TD = 0.1) /\
  (Figure14.h_T = 1 /\ Figure14.h_BU = 0.01 /\ Figure14.h_TD = 0.1) /\
  (exists l : Sensitivity.locals,
     Sensitivity.loop_locals 1190 7.058 92.89 = Ok l /\
     Sensitivity.dfdT_s l
       = central_difference (fun t => form_A t 7.058 92.89) 1190 Sensitivity.H_T /\
     Sensitivity.dfdBU_s l
       = central_difference (fun b => form_A 1190 b 92.89) 7.058 Sensitivity.H_BU /\
     Sensitivity.dfdTD_s l
       = central_difference (fun d => form_A 1190 7.058 d) 92.89 Sensitivity.H_TD /\
     Sensitivity.dfdT_r l
       = central_difference (fun t => form_B t 7.058) 1190 Sensitivity.H_T /\
     Sensitivity.dfdBU_r l
       = central_difference (fun b => form_B 1190 b) 7.058 Sensitivity.H_BU) /\
  Figure14.propagate_storms 1190 7.058 92.89
  = Ok (form_A 1190 7.058 92.89,
        sqrt ((central_difference (fun t => form_A t 7.058 92.89) 1190 Figure14.h_T
               * Figure14.dT) ^ 2
              + (central_difference (fun b => form_A 1190 b 92.89) 7.058 Figure14.h_BU
                 * Figure14.dBU) ^ 2
              + (central_difference (fun d => form_A 1190 7.058 d) 92.89 Figure14.h_TD
                 * Figure14.dTD) ^ 2)) /\
  Figure14.propagate_rogozkin 1190 7.058
  = Ok (form_B 1190 7.058,
        sqrt ((central_difference (fun t => form_B t 7.058) 1190 Figure14.h_T
               * Figure14.dT) ^ 2
              + (central_difference (fun b => form_B 1190 b) 7.058 Figure14.h_BU
                 * Figure14.dBU) ^ 2)).
Proof.
  apply (@derivatives_are_central_differences 1190 7.058 92.89);
    unfold Sensitivity.H_BU, Sensitivity.H_TD, Sensitivity.H_T; lra.
Defined.

(** C6: for every pass through the loop that completes, each variance term
    is [(df/dx * Delta x)^2] with Delta T = 30 K, Delta BU = 0.5 %FIMA and
    Delta rho = 2 %TD; the total variance is the sum of the three terms for
    Storms and of the two terms for Rogozkin; and the reported sigma is the
    square root of the total. *)
Theorem variance_composition (T BU TD : R) (l : Sensitivity.locals) :
  Sensitivity.loop_locals T BU TD = Ok l ->
  (Sensitivity.DELTA_T = 30 /\ Sensitivity.DELTA_BU = 0.5 /\ Sensitivity.DELTA_TD = 2) /\
  Sensitivity.var_T_s l = variance_term (Sensitivity.dfdT_s l) 30 /\
  Sensitivity.var_BU_s l = variance_term (Sensitivity.dfdBU_s l) 0.5 /\
  Sensitivity.var_TD_s l = variance_term (Sensitivity.dfdTD_s l) 2 /\
  Sensitivity.var_total_s l
    = Sensitivity.var_T_s l + Sensitivity.var_BU_s l + Sensitivity.var_TD_s l /\
  Sensitivity.sigma_s l = sqrt (Sensitivity.var_total_s l) /\
  Sensitivity.var_T_r l = variance_term (Sensitivity.dfdT_r l) 30 /\
  Sensitivity.var_BU_r l = variance_term (Sensitivity.dfdBU_r l) 0.5 /\
  Sensitivity.var_total_r l = Sensitivity.var_T_r l + Sensitivity.var_BU_r l /\
  Sensitivity.sigma_r l = sqrt (Sensitivity.var_total_r l) /\
  (forall r : Sensitivity.row,
     Sensitivity.sigma_Storms (Sensitivity.result_entry r l)
       = sqrt (Sensitivity.var_total_s l) /\
     Sensitivity.sigma_Rogozkin (Sensitivity.result_entry r l)
       = sqrt (Sensitivity.var_total_r l)).
Proof.
  intros H.
  destruct (loop_locals_Ok_inv _ _ _ H)
    as (s0 & s1 & s2 & s3 & s4 & s5 & s6 & r0 & r1 & r2 & r3 & r4 & I).
  decompose [and] I. clear I.
  split; [repeat split | ].
  do 9 (split; [assumption | ]).
  intros rw. simpl. split; assumption.
Qed.

Lemma variance_composition_witness :
  Sensitivity.loop_locals 1190 7.058 92.89 = Ok locals_RRN01_6 /\
  (Sensitivity.DELTA_T = 30 /\ Sensitivity.DELTA_BU = 0.5 /\ Sensitivity.DELTA_TD = 2) /\
  Sensitivity.var_T_s locals_RRN01_6
    = variance_term (Sensitivity.dfdT_s locals_RRN01_6) 30 /\
  Sensitivity.var_BU_s locals_RRN01_6
    = variance_term (Sensitivity.dfdBU_s locals_RRN01_6) 0.5 /\
  Sensitivity.var_TD_s locals_RRN01_6
    = variance_term (Sensitivity.dfdTD_s locals_RRN01_6) 2 /\
  Sensitivity.var_total_s locals_RRN01_6
    = Sensitivity.var_T_s locals_RRN01_6 + Sensitivity.var_BU_s locals_RRN01_6
      + Sensitivity.var_TD_s locals_RRN01_6 /\
  Sensitivity.sigma_s locals_RRN01_6 = sqrt (Sensitivity.var_total_s locals_RRN01_6) /\
  Sensitivity.var_T_r locals_RRN01_6
    = variance_term (Sensitivity.dfdT_r locals_RRN01_6) 30 /\
  Sensitivity.var_BU_r locals_RRN01_6
    = variance_term (Sensitivity.dfdBU_r locals_RRN01_6) 0.5 /\
  Sensitivity.var_total_r locals_RRN01_6
    = Sensitivity.var_T_r locals_RRN01_6 + Sensitivity.var_BU_r locals_RRN01_6 /\
  Sensitivity.sigma_r locals_RRN01_6 = sqrt (Sensitivity.var_total_r locals_RRN01_6) /\
  (forall r : Sensitivity.row,
     Sensitivity.sigma_Storms (Sensitivity.result_entry r locals_RRN01_6)
       = sqrt (Sensitivity.var_total_s locals_RRN01_6) /\
     Sensitivity.sigma_Rogozkin (Sensitivity.result_entry r locals_RRN01_6)
       = sqrt (Sensitivity.var_total_r locals_RRN01_6)).
Proof.
  assert (H : Sensitivity.loop_locals 1190 7.058 92.89 = Ok locals_RRN01_6).
  { apply loop_locals_in_domain;
      unfold Sensitivity.H_BU, Sensitivity.H_TD, Sensitivity.H_T; lra. }
  split; [exact H | ].
  exact (@variance_composition 1190 7.058 92.89 locals_RRN01_6 H).
Defined.

(** C4: on every valid input (burnup positive, temperature above 273.15 K)
    both copies of [rogozkin_fgr] return exactly
    [3.05 BU^1.92 exp(-2086 / (T - 273.15))], the Kelvin temperature being
    shifted to Celsius inside the function.  Density is not an input: two
    rows that differ only in density get the same Rogozkin results, in the
    loop of [sensitivity_analysis.py] and in [figure14_fgr_comparison.py]. *)
Theorem rogozkin_fgr_is_form_B :
  (forall T BU : R, 0 < BU -> 273.15 < T ->
     Sensitivity.rogozkin_fgr T BU = Ok (PyFloat (form_B T BU)) /\
     Figure14.rogozkin_fgr T BU = Ok (PyFloat (form_B T BU))) /\
  (forall T BU : R,
     form_B T BU = 3.05 * Rpower BU 1.92 * exp (- 2086 / (T - 273.15))) /\
  (forall (r1 r2 : Sensitivity.row) (e1 e2 : Sensitivity.entry),
     Sensitivity.T_K r1 = Sensitivity.T_K r2 ->
     Sensitivity.BU_FIMA r1 = Sensitivity.BU_FIMA r2 ->
     Sensitivity.loop_body r1 = Ok e1 ->
     Sensitivity.loop_body r2 = Ok e2 ->
     Sensitivity.FGR_Rogozkin e1 = Sensitivity.FGR_Rogozkin e2 /\
     Sensitivity.sigma_Rogozkin e1 = Sensitivity.sigma_Rogozkin e2 /\
     Sensitivity.Rogozkin_var_T_pct e1 = Sensitivity.Rogozkin_var_T_pct e2 /\
     Sensitivity.Rogozkin_var_BU_pct e1 = Sensitivity.Rogozkin_var_BU_pct e2) /\
  (forall r1 r2 : Figure14.row,
     Figure14.T r1 = Figure14.T r2 ->
     Figure14.BU r1 = Figure14.BU r2 ->
     Figure14.rogozkin_lambda r1 = Figure14.rogozkin_lambda r2).
Proof.
  split; [ | split; [ | split]].
  - intros T BU HBU HT. rewrite rogozkin_fgr_copies.
    split; apply rogozkin_fgr_in_domain; lra.
  - reflexivity.
  - intros r1 r2 e1 e2 ET EBU H1 H2.
    unfold Sensitivity.loop_body in H1, H2.
    apply bind_Ok_inv in H1. destruct H1 as (l1 & L1 & E1).
    apply bind_Ok_inv in H2. destruct H2 as (l2 & L2 & E2).
    injection E1 as <-. injection E2 as <-.
    rewrite <- ET, <- EBU in L2.
    destruct (loop_locals_Ok_inv _ _ _ L1)
      as (a0 & a1 & a2 & a3 & a4 & a5 & a6 & b0 & b1 & b2 & b3 & b4 & I1).
    destruct (loop_locals_Ok_inv _ _ _ L2)
      as (c0 & c1 & c2 & c3 & c4 & c5 & c6 & d0 & d1 & d2 & d3 & d4 & I2).
    decompose [and] I1. clear I1. decompose [and] I2. clear I2.
    assert (K0 : b0 = d0) by congruence.
    assert (K1 : b1 = d1) by congruence.
    assert (K2 : b2 = d2) by congruence.
    assert (K3 : b3 = d3) by congruence.
    assert (K4 : b4 = d4) by congruence.
    assert (DT : Sensitivity.dfdT_r l1 = Sensitivity.dfdT_r l2) by congruence.
    assert (DB : Sensitivity.dfdBU_r l1 = Sensitivity.dfdBU_r l2) by congruence.
    assert (VT : Sensitivity.var_T_r l1 = Sensitivity.var_T_r l2) by congruence.
    assert (VB : Sensitivity.var_BU_r l1 = Sensitivity.var_BU_r l2) by congruence.
    assert (VV : Sensitivity.var_total_r l1 = Sensitivity.var_total_r l2) by congruence.
    simpl. rewrite VT, VB, VV.
    repeat split; congruence.
  - intros r1 r2 ET EBU. unfold Figure14.rogozkin_lambda.
    rewrite ET, EBU. reflexivity.
Qed.

(* ================================================================= *)
(** ** Fractional contributions *)

Lemma variance_term_nonneg (d delta : R) : 0 <= variance_term d delta.
Proof. unfold variance_term. apply pow2_ge_0. Qed.

(** The guard of the source ([> 0]) and [contribution] (zero at [V = 0])
    agree on a total variance that is not negative. *)
Lemma guard_is_contribution (v V : R) :
  0 <= V -> (if Rlt_dec 0 V then 100 * v / V else 0) = contribution v V.
Proof.
  intros HV. unfold contribution.
  destruct (Rlt_dec 0 V) as [P | N]; destruct (Req_dec_T V 0) as [Z | NZ];
    try reflexivity; lra.
Qed.

Lemma shares_sum3 (a b c V : R) :
  0 < V -> V = a + b + c -> 100 * a / V + 100 * b / V + 100 * c / V = 100.
Proof. intros HV ->. field. lra. Qed.

Lemma shares_sum2 (a b V : R) :
  0 < V -> V = a + b -> 100 * a / V + 100 * b / V = 100.
Proof. intros HV ->. field. lra. Qed.

(** C1: for every row the loop completes on, and for each correlation, the
    percentages written to the results are [100 v / V] (and 0 at [V = 0]),
    and they add up to exactly 100 whenever the total variance [V] is
    positive.  When [V] is 0 every percentage written is 0: the guard of the
    source returns 0 instead of dividing, whatever the locals are. *)
Theorem contributions_sum_to_100 :
  (forall (r : Sensitivity.row) (e : Sensitivity.entry),
     Sensitivity.loop_body r = Ok e ->
     exists l : Sensitivity.locals,
       Sensitivity.loop_locals (IZR (Sensitivity.T_K r))
         (Q2R (Sensitivity.BU_FIMA r)) (Q2R (Sensitivity.TD_pct r)) = Ok l /\
       e = Sensitivity.result_entry r l /\
       Sensitivity.Storms_var_T_pct e
         = contribution (Sensitivity.var_T_s l) (Sensitivity.var_total_s l) /\
       Sensitivity.Storms_var_BU_pct e
         = contribution (Sensitivity.var_BU_s l) (Sensitivity.var_total_s l) /\
       Sensitivity.Storms_var_TD_pct e
         = contribution (Sensitivity.var_TD_s l) (Sensitivity.var_total_s l) /\
       Sensitivity.Rogozkin_var_T_pct e
         = contribution (Sensitivity.var_T_r l) (Sensitivity.var_total_r l) /\
       Sensitivity.Rogozkin_var_BU_pct e
         = contribution (Sensitivity.var_BU_r l) (Sensitivity.var_total_r l) /\
       (0 < Sensitivity.var_total_s l ->
        Sensitivity.Storms_var_T_pct e + Sensitivity.Storms_var_BU_pct e
          + Sensitivity.Storms_var_TD_pct e = 100) /\
       (0 < Sensitivity.var_total_r l ->
        Sensitivity.Rogozkin_var_T_pct e + Sensitivity.Rogozkin_var_BU_pct e = 100)) /\
  (forall (r : Sensitivity.row) (l : Sensitivity.locals),
     Sensitivity.var_total_s l = 0 ->
     Sensitivity.Storms_var_T_pct (Sensitivity.result_entry r l) = 0 /\
     Sensitivity.Storms_var_BU_pct (Sensitivity.result_entry r l) = 0 /\
     Sensitivity.Storms_var_TD_pct (Sensitivity.result_entry r l) = 0) /\
  (forall (r : Sensitivity.row) (l : Sensitivity.locals),
     Sensitivity.var_total_r l = 0 ->
     Sensitivity.Rogozkin_var_T_pct (Sensitivity.result_entry r l) = 0 /\
     Sensitivity.Rogozkin_var_BU_pct (Sensitivity.result_entry r l) = 0).
Proof.
  split; [ | split].
  - intros r e H. unfold Sensitivity.loop_body in H.
    apply bind_Ok_inv in H. destruct H as (l & L & E).
    injection E as <-. exists l.
    split; [exact L | ]. split; [reflexivity | ].
    destruct (loop_locals_Ok_inv _ _ _ L)
      as (s0 & s1 & s2 & s3 & s4 & s5 & s6 & r0 & r1 & r2 & r3 & r4 & I).
    decompose [and] I. clear I.
    assert (Vs : 0 <= Sensitivity.var_total_s l).
    { replace (Sensitivity.var_total_s l) with
        (variance_term (Sensitivity.dfdT_s l) Sensitivity.DELTA_T
         + variance_term (Sensitivity.dfdBU_s l) Sensitivity.DELTA_BU
         + variance_term (Sensitivity.dfdTD_s l) Sensitivity.DELTA_TD)
        by (unfold variance_term; congruence).
      pose proof (variance_term_nonneg (Sensitivity.dfdT_s l) Sensitivity.DELTA_T).
      pose proof (variance_term_nonneg (Sensitivity.dfdBU_s l) Sensitivity.DELTA_BU).
      pose proof (variance_term_nonneg (Sensitivity.dfdTD_s l) Sensitivity.DELTA_TD).
      lra. }
    assert (Vr : 0 <= Sensitivity.var_total_r l).
    { replace (Sensitivity.var_total_r l) with
        (variance_term (Sensitivity.dfdT_r l) Sensitivity.DELTA_T
         + variance_term (Sensitivity.dfdBU_r l) Sensitivity.DELTA_BU)
        by (unfold variance_term; congruence).
      pose proof (variance_term_nonneg (Sensitivity.dfdT_r l) Sensitivity.DELTA_T).
      pose proof (variance_term_nonneg (Sensitivity.dfdBU_r l) Sensitivity.DELTA_BU).
      lra. }
    simpl.
    do 5 (split; [apply guard_is_contribution; assumption | ]).
    split; intros P.
    + destruct (Rlt_dec 0 (Sensitivity.var_total_s l)) as [_ | N];
        [ | contradiction].
      apply shares_sum3; assumption.
    + destruct (Rlt_dec 0 (Sensitivity.var_total_r l)) as [_ | N];
        [ | contradiction].
      apply shares_sum2; assumption.
  - intros r l Z. simpl.
    destruct (Rlt_dec 0 (Sensitivity.var_total_s l)) as [P | _]; [lra | ].
    repeat split.
  - intros r l Z. simpl.
    destruct (Rlt_dec 0 (Sensitivity.var_total_r l)) as [P | _]; [lra | ].
    repeat split.
Qed.

(* ================================================================= *)
(** ** Monotonicity in temperature and positive total variance *)

Lemma form_A_increasing_T (T1 T2 BU rho : R) :
  T1 < T2 -> form_A T1 BU rho < form_A T2 BU rho.
Proof.
  intros HT. unfold form_A.
  set (c := 90 * Rpower rho 0.77 / Rpower BU 0.09).
  assert (E : exp (0.0025 * (c - T2)) < exp (0.0025 * (c - T1)))
    by (apply exp_increasing; lra).
  pose proof (exp_pos (0.0025 * (c - T2))) as P2.
  unfold Rdiv. apply Rmult_lt_compat_l; [lra | ].
  apply Rinv_lt_contravar; [ | lra].
  apply Rmult_lt_0_compat; lra.
Qed.

Lemma form_B_increasing_T (T1 T2 BU : R) :
  273.15 < T1 -> T1 < T2 -> form_B T1 BU < form_B T2 BU.
Proof.
  intros H1 H12. unfold form_B.
  pose proof (Rpower_pos BU 1.92) as PB.
  apply Rmult_lt_compat_l; [lra | ].
  apply exp_increasing.
  assert (I : / (T2 - 273.15) < / (T1 - 273.15)).
  { apply Rinv_lt_contravar; [ | lra]. apply Rmult_lt_0_compat; lra. }
  unfold Rdiv. lra.
Qed.

Lemma variance_term_pos (d delta : R) :
  0 < d -> 0 < delta -> 0 < variance_term d delta.
Proof.
  intros Hd Hdelta. unfold variance_term. apply pow_lt.
  apply Rmult_lt_0_compat; assumption.
Qed.

Lemma central_difference_pos (f : R -> R) (x h : R) :
  0 < h -> f (x - h) < f (x + h) -> 0 < central_difference f x h.
Proof.
  intros Hh Hf. unfold central_difference.
  apply Rdiv_lt_0_compat; lra.
Qed.

Lemma recipe_total_variance_pos (T BU TD : R) :
  273.15 + 1 < T ->
  0 < Sensitivity.var_total_s (recipe_locals T BU TD) /\
  0 < Sensitivity.var_total_r (recipe_locals T BU TD).
Proof.
  intros HT. simpl.
  assert (A : 0 < variance_term
                    (central_difference (fun t => form_A t BU TD) T 1) 30).
  { apply variance_term_pos; [ | lra].
    apply central_difference_pos; [lra | ].
    apply form_A_increasing_T. lra. }
  assert (B : 0 < variance_term
                    (central_difference (fun t => form_B t BU) T 1) 30).
  { apply variance_term_pos; [ | lra].
    apply central_difference_pos; [lra | ].
    apply form_B_increasing_T; lra. }
  pose proof (variance_term_nonneg
                (central_difference (fun b => form_A T b TD) BU 0.01) 0.5).
  pose proof (variance_term_nonneg
                (central_difference (fun d => form_A T BU d) TD 0.1) 2).
  pose proof (variance_term_nonneg
                (central_difference (fun b => form_B T b) BU 0.01) 0.5).
  split; lra.
Qed.

(* ================================================================= *)
(** ** From the rational table to real inputs *)

Lemma Qltb_Rlt (x y : Q) : Qltb x y = true -> Q2R x < Q2R y.
Proof.
  unfold Qltb. intros H. apply Qlt_Rlt. apply Qlt_alt.
  destruct (x ?= y)%Q; try discriminate. reflexivity.
Qed.

Lemma Q2R_inject_Z (z : Z) : Q2R (inject_Z z) = IZR z.
Proof. unfold Q2R, inject_Z. simpl. rewrite Rinv_1. ring. Qed.

Lemma perturbable_sound (t : Z) (bu td : Q) :
  perturbable t bu td = true ->
  Sensitivity.H_BU < Q2R bu /\ Sensitivity.H_TD < Q2R td /\
  273.15 + Sensitivity.H_T < IZR t.
Proof.
  unfold perturbable. intros H.
  apply andb_prop in H. destruct H as [H Htd].
  apply andb_prop in H. destruct H as [Ht Hbu].
  apply Qltb_Rlt in Ht, Hbu, Htd.
  rewrite Q2R_inject_Z in Ht.
  unfold Sensitivity.H_BU, Sensitivity.H_TD, Sensitivity.H_T.
  assert (Et : Q2R (273.15 + 1) = 273.15 + 1) by (unfold Q2R; simpl; lra).
  rewrite Et in Ht.
  repeat split; assumption.
Qed.

Lemma mapM_Ok (A B : Type) (f : A -> outcome B) (l : list A) :
  Forall (fun x => exists y : B, f x = Ok y) l ->
  exists ys : list B, mapM f l = Ok ys /\ List.length ys = List.length l.
Proof.
  induction 1 as [ | x t [y Hy] _ [ys [Hys Hlen]]].
  - exists []. split; reflexivity.
  - exists (y :: ys). simpl. rewrite Hy, Hys. simpl.
    split; [reflexivity | now rewrite Hlen].
Qed.

Lemma forallb_Forall (A : Type) (p : A -> bool) (l : list A) :
  forallb p l = true -> Forall (fun x => p x = true) l.
Proof.
  intros H. apply Forall_forall. intros x Hx.
  rewrite forallb_forall in H. now apply H.
Qed.

(* ================================================================= *)
(** ** The Ross swelling correlation *)

Lemma ross_swelling_in_domain (T BU TD : R) :
  0 < T -> 0 < BU -> 0 < TD ->
  Figure15.ross_swelling T BU TD = PyFloat (ross T BU TD).
Proof.
  intros HT HBU HTD. unfold Figure15.ross_swelling, ross.
  rewrite (py_pow_pos 3.12 HT), (py_pow_pos 0.83 HBU), (py_pow_pos 0.5 HTD).
  reflexivity.
Qed.

Lemma ross_pos (T BU rho : R) : 0 < ross T BU rho.
Proof.
  unfold ross.
  pose proof (Rpower_pos T 3.12). pose proof (Rpower_pos BU 0.83).
  pose proof (Rpower_pos rho 0.5).
  apply Rmult_lt_0_compat; [ | assumption].
  apply Rmult_lt_0_compat; [ | assumption].
  apply Rmult_lt_0_compat; [lra | assumption].
Qed.





(* ================================================================= *)
(** ** The embedded specimens are inside the domain *)

Lemma sensitivity_rows_perturbable :
  forallb (fun r => perturbable (Sensitivity.T_K r) (Sensitivity.BU_FIMA r)
                      (Sensitivity.TD_pct r))
          (Sensitivity.iterrows Sensitivity.df) = true.
Proof. vm_compute. reflexivity. Qed.

Lemma figure14_rows_perturbable :
  forallb (fun r => perturbable (Figure14.T r) (Figure14.BU r) (Figure14.TD r))
          (Figure14.rows Figure14.df) = true.
Proof. vm_compute. reflexivity. Qed.

Lemma figure15_rows_perturbable :
  forallb (fun r => perturbable (Figure15.T r) (Figure15.BU r) (Figure15.TD r))
          (Figure15.rows Figure15.df) = true.
Proof. vm_compute. reflexivity. Qed.

Lemma loop_body_in_domain (r : Sensitivity.row) :
  perturbable (Sensitivity.T_K r) (Sensitivity.BU_FIMA r) (Sensitivity.TD_pct r)
    = true ->
  Sensitivity.loop_body r
  = Ok (Sensitivity.result_entry r
          (recipe_locals (IZR (Sensitivity.T_K r)) (Q2R (Sensitivity.BU_FIMA r))
                         (Q2R (Sensitivity.TD_pct r)))).
Proof.
  intros H. apply perturbable_sound in H. destruct H as (HBU & HTD & HT).
  unfold Sensitivity.loop_body.
  rewrite loop_locals_in_domain by assumption. reflexivity.
Qed.

Lemma sensitivity_rows_from_875 :
  forallb (fun r => (875 <=? Sensitivity.T_K r)%Z)
          (Sensitivity.iterrows Sensitivity.df) = true.
Proof. vm_compute. reflexivity. Qed.

(** C9: each of the 36 embedded specimens has T > 273.15 K (the lowest
    temperature is 875 K), positive burnup and positive density.  On the
    embedded table every evaluation therefore returns a float: the loop of
    [sensitivity_analysis.py] completes on every row with both total
    variances strictly positive, so each percentage is the quotient
    [100 v / V] and the zero branch is never taken; the two [df.apply] calls
    of [figure14_fgr_comparison.py] complete; and every Ross swelling value
    is a positive float. *)
Theorem embedded_specimens_in_domain :
  List.length (Sensitivity.iterrows Sensitivity.df) = 36%nat /\
  Forall (fun r =>
            273.15 < IZR (Sensitivity.T_K r) /\
            (875 <= Sensitivity.T_K r)%Z /\
            0 < Q2R (Sensitivity.BU_FIMA r) /\
            0 < Q2R (Sensitivity.TD_pct r))
         (Sensitivity.iterrows Sensitivity.df) /\
  In 875%Z (map Sensitivity.T_K (Sensitivity.iterrows Sensitivity.df)) /\
  Forall (fun r =>
            exists (l : Sensitivity.locals) (e : Sensitivity.entry),
              Sensitivity.loop_locals (IZR (Sensitivity.T_K r))
                (Q2R (Sensitivity.BU_FIMA r)) (Q2R (Sensitivity.TD_pct r)) = Ok l /\
              Sensitivity.loop_body r = Ok e /\
              0 < Sensitivity.var_total_s l /\
              0 < Sensitivity.var_total_r l /\
              Sensitivity.Storms_var_T_pct e
                = 100 * Sensitivity.var_T_s l / Sensitivity.var_total_s l /\
              Sensitivity.Storms_var_BU_pct e
                = 100 * Sensitivity.var_BU_s l / Sensitivity.var_total_s l /\
              Sensitivity.Storms_var_TD_pct e
                = 100 * Sensitivity.var_TD_s l / Sensitivity.var_total_s l /\
              Sensitivity.Rogozkin_var_T_pct e
                = 100 * Sensitivity.var_T_r l / Sensitivity.var_total_r l /\
              Sensitivity.Rogozkin_var_BU_pct e
                = 100 * Sensitivity.var_BU_r l / Sensitivity.var_total_r l)
         (Sensitivity.iterrows Sensitivity.df) /\
  (exists es : list Sensitivity.entry,
     Sensitivity.results = Ok es /\ List.length es = 36%nat) /\
  (exists xs : list (R * R),
     Figure14.storms_results = Ok xs /\ List.length xs = 36%nat) /\
  (exists ys : list (R * R),
     Figure14.rogozkin_results = Ok ys /\ List.length ys = 36%nat) /\
  List.length Figure15.Swelling_Ross = 36%nat /\
  Forall (fun v => exists x : R, v = PyFloat x /\ 0 < x) Figure15.Swelling_Ross.
Proof.
  pose proof (forallb_Forall _ _ sensitivity_rows_perturbable) as P.
  pose proof (forallb_Forall _ _ sensitivity_rows_from_875) as M.
  pose proof (forallb_Forall _ _ figure14_rows_perturbable) as P14.
  pose proof (forallb_Forall _ _ figure15_rows_perturbable) as P15.
  split; [reflexivity | ].
  split.
  { pose proof (Forall_and P M) as PM.
    revert PM. apply Forall_impl. intros r [Hp Hm].
    apply perturbable_sound in Hp. destruct Hp as (HBU & HTD & HT).
    unfold Sensitivity.H_BU, Sensitivity.H_TD, Sensitivity.H_T in *.
    apply Z.leb_le in Hm.
    repeat split; try assumption; lra. }
  split.
  { vm_compute. do 18 right. left. reflexivity. }
  split.
  { revert P. apply Forall_impl. intros r Hp.
    pose proof (loop_body_in_domain r Hp) as B.
    apply perturbable_sound in Hp. destruct Hp as (HBU & HTD & HT).
    pose proof (loop_locals_in_domain HBU HTD HT) as L.
    destruct (@recipe_total_variance_pos (IZR (Sensitivity.T_K r))
                (Q2R (Sensitivity.BU_FIMA r)) (Q2R (Sensitivity.TD_pct r)) HT)
      as [Vs Vr].
    eexists. eexists.
    split; [exact L | ]. split; [exact B | ].
    split; [exact Vs | ]. split; [exact Vr | ].
    unfold Sensitivity.result_entry; cbn [Sensitivity.Storms_var_T_pct
      Sensitivity.Storms_var_BU_pct Sensitivity.Storms_var_TD_pct
      Sensitivity.Rogozkin_var_T_pct Sensitivity.Rogozkin_var_BU_pct].
    destruct (Rlt_dec 0 (Sensitivity.var_total_s _)) as [_ | N];
      [ | contradiction].
    destruct (Rlt_dec 0 (Sensitivity.var_total_r _)) as [_ | N];
      [ | contradiction].
    repeat split. }
  split.
  { destruct (@mapM_Ok _ _ Sensitivity.loop_body
                (Sensitivity.iterrows Sensitivity.df)) as (es & E & Len).
    - revert P. apply Forall_impl. intros r Hp.
      eexists. apply loop_body_in_domain. exact Hp.
    - exists es. split; [exact E | rewrite Len; reflexivity]. }
  split.
  { destruct (@mapM_Ok _ _ Figure14.storms_lambda
                (Figure14.rows Figure14.df)) as (xs & E & Len).
    - revert P14. apply Forall_impl. intros r Hp.
      apply perturbable_sound in Hp. destruct Hp as (HBU & HTD & HT).
      eexists. unfold Figure14.storms_lambda.
      apply propagate_storms_in_domain; assumption.
    - exists xs. split; [exact E | rewrite Len; reflexivity]. }
  split.
  { destruct (@mapM_Ok _ _ Figure14.rogozkin_lambda
                (Figure14.rows Figure14.df)) as (ys & E & Len).
    - revert P14. apply Forall_impl. intros r Hp.
      apply perturbable_sound in Hp. destruct Hp as (HBU & HTD & HT).
      eexists. unfold Figure14.rogozkin_lambda.
      apply propagate_rogozkin_in_domain; assumption.
    - exists ys. split; [exact E | rewrite Len; reflexivity]. }
  split; [reflexivity | ].
  unfold Figure15.Swelling_Ross. apply Forall_map.
  revert P15. apply Forall_impl. intros r Hp.
  apply perturbable_sound in Hp. destruct Hp as (HBU & HTD & HT).
  unfold Sensitivity.H_BU, Sensitivity.H_TD, Sensitivity.H_T in *.
  exists (ross (IZR (Figure15.T r)) (Q2R (Figure15.BU r)) (Q2R (Figure15.TD r))).
  split; [apply ross_swelling_in_domain; lra | apply ross_pos].
Qed.

(* ================================================================= *)
(** ** Concrete runs *)

Example first_row :
  hd_error (Sensitivity.iterrows Sensitivity.df)
  = Some (Sensitivity.Row "RRN01-6" 1 1190 7.058 92.89).
Proof. reflexivity. Qed.

Example coldest_row :
  nth_error (Sensitivity.iterrows Sensitivity.df) 18
  = Some (Sensitivity.Row "RRN04-6" 4 875 5.936 94.33).
Proof. reflexivity. Qed.

Example storms_at_zero_burnup :
  Sensitivity.storms_fgr 1190 0 92.89 = Raise ZeroDivisionError.
Proof. apply storms_fgr_zero_burnup. Qed.

Example storms_at_negative_burnup :
  Sensitivity.storms_fgr 1190 (-1) 92.89 = Ok PyComplex.
Proof. apply storms_fgr_negative_burnup. lra. Qed.

Example rogozkin_at_zero_celsius :
  Sensitivity.rogozkin_fgr 273.15 7.058 = Raise ZeroDivisionError.
Proof. apply rogozkin_fgr_zero_celsius. Qed.

Example rogozkin_below_zero_celsius :
  Sensitivity.rogozkin_fgr 200 7.058 = Ok (PyFloat (form_B 200 7.058)).
Proof. apply rogozkin_fgr_in_domain; lra. Qed.

(** A row whose burnup is 0 stops the loop at its first evaluation. *)
Example loop_at_zero_burnup :
  Sensitivity.loop_body (Sensitivity.Row "RRN01-6" 1 1190 0 92.89)
  = Raise ZeroDivisionError.
Proof.
  unfold Sensitivity.loop_body, Sensitivity.loop_locals. simpl Sensitivity.BU_FIMA.
  replace (Q2R 0) with 0 by (unfold Q2R; simpl; lra).
  rewrite storms_fgr_zero_burnup. reflexivity.
Qed.

(** The guard on locals whose total variances are 0. *)
Example guard_on_zero_variance (r : Sensitivity.row) :
  let l := Sensitivity.Locals 50 0 0 0 0 0 0 0 0 50 0 0 0 0 0 0 in
  Sensitivity.Storms_var_T_pct (Sensitivity.result_entry r l) = 0 /\
  Sensitivity.Rogozkin_var_BU_pct (Sensitivity.result_entry r l) = 0.
Proof.
  simpl. destruct (Rlt_dec 0 0) as [H | _]; [lra | ]. split; reflexivity.
Qed.

(* ================================================================= *)
(** ** Further properties of the correlations *)















(* ================================================================= *)
(** ** When the propagation completes, and what the two scripts share *)

Lemma real_is_float (o : outcome pyval) :
  (exists x : R, real o = Ok x) <-> (exists x : R, o = Ok (PyFloat x)).
Proof.
  split; intros [x H]; exists x.
  - apply real_Ok_inv. exact H.
  - apply real_float. exact H.
Qed.



Lemma propagate_storms_of_floats (T BU TD s0 s1 s2 s3 s4 s5 s6 : R) :
  Sensitivity.storms_fgr T BU TD = Ok (PyFloat s0) ->
  Sensitivity.storms_fgr (T + 1) BU TD = Ok (PyFloat s1) ->
  Sensitivity.storms_fgr (T - 1) BU TD = Ok (PyFloat s2) ->
  Sensitivity.storms_fgr T (BU + 0.01) TD = Ok (PyFloat s3) ->
  Sensitivity.storms_fgr T (BU - 0.01) TD = Ok (PyFloat s4) ->
  Sensitivity.storms_fgr T BU (TD + 0.1) = Ok (PyFloat s5) ->
  Sensitivity.storms_fgr T BU (TD - 0.1) = Ok (PyFloat s6) ->
  Figure14.propagate_storms T BU TD
  = Ok (s0, sqrt (((s1 - s2) / (2 * 1) * 30) ^ 2
                  + ((s3 - s4) / (2 * 0.01) * 0.5) ^ 2
                  + ((s5 - s6) / (2 * 0.1) * 2) ^ 2)).
Proof.
  intros E0 E1 E2 E3 E4 E5 E6.
  unfold Figure14.propagate_storms, Figure14.h_T, Figure14.h_BU, Figure14.h_TD.
  rewrite storms_fgr_copies, E0, E1, E2, E3, E4, E5, E6. reflexivity.
Qed.

Lemma propagate_rogozkin_of_floats (T BU r0 r1 r2 r3 r4 : R) :
  Sensitivity.rogozkin_fgr T BU = Ok (PyFloat r0) ->
  Sensitivity.rogozkin_fgr (T + 1) BU = Ok (PyFloat r1) ->
  Sensitivity.rogozkin_fgr (T - 1) BU = Ok (PyFloat r2) ->
  Sensitivity.rogozkin_fgr T (BU + 0.01) = Ok (PyFloat r3) ->
  Sensitivity.rogozkin_fgr T (BU - 0.01) = Ok (PyFloat r4) ->
  Figure14.propagate_rogozkin T BU
  = Ok (r0, sqrt (((r1 - r2) / (2 * 1) * 30) ^ 2
                  + ((r3 - r4) / (2 * 0.01) * 0.5) ^ 2)).
Proof.
  intros E0 E1 E2 E3 E4.
  unfold Figure14.propagate_rogozkin, Figure14.h_T, Figure14.h_BU.
  rewrite rogozkin_fgr_copies, E0, E1, E2, E3, E4. reflexivity.
Qed.

(** The loop body is the two propagations of figure 14, one after the
    other. *)
Lemma loop_locals_splits (T BU TD : R) (l : Sensitivity.locals) :
  Sensitivity.loop_locals T BU TD = Ok l ->
  Figure14.propagate_storms T BU TD
    = Ok (Sensitivity.fgr_s l, Sensitivity.sigma_s l) /\
  Figure14.propagate_rogozkin T BU
    = Ok (Sensitivity.fgr_r l, Sensitivity.sigma_r l).
Proof.
  intros H.
  destruct (loop_locals_Ok_inv _ _ _ H)
    as (s0 & s1 & s2 & s3 & s4 & s5 & s6 & r0 & r1 & r2 & r3 & r4 & I).
  decompose [and] I. clear I.
  unfold Sensitivity.H_T, Sensitivity.H_BU, Sensitivity.H_TD in *.
  split.
  - rewrite (propagate_storms_of_floats _ _ _ H0 H2 H1 H3 H4 H5 H6).
    f_equal. f_equal; [congruence | ].
    unfold Sensitivity.DELTA_T, Sensitivity.DELTA_BU, Sensitivity.DELTA_TD in *.
    congruence.
  - rewrite (propagate_rogozkin_of_floats _ _ H7 H8 H9 H10 H11).
    f_equal. f_equal; [congruence | ].
    unfold Sensitivity.DELTA_T, Sensitivity.DELTA_BU in *.
    congruence.
Qed.



Lemma loop_body_Ok_inv (r : Sensitivity.row) (e : Sensitivity.entry) :
  Sensitivity.loop_body r = Ok e ->
  exists l : Sensitivity.locals,
    Sensitivity.loop_locals (IZR (Sensitivity.T_K r)) (Q2R (Sensitivity.BU_FIMA r))
      (Q2R (Sensitivity.TD_pct r)) = Ok l /\
    e = Sensitivity.result_entry r l.
Proof.
  unfold Sensitivity.loop_body. intros H.
  apply bind_Ok_inv in H. destruct H as (l & L & E).
  injection E as <-. exists l. split; [exact L | reflexivity].
Qed.

Lemma mapM_cons_Ok_inv (A B : Type) (f : A -> outcome B) (x : A) (t : list A)
    (ys : list B) :
  mapM f (x :: t) = Ok ys ->
  exists (y : B) (ys' : list B), f x = Ok y /\ mapM f t = Ok ys' /\ ys = y :: ys'.
Proof.
  simpl. intros H.
  apply bind_Ok_inv in H. destruct H as (y & Hy & H).
  apply bind_Ok_inv in H. destruct H as (ys' & Hys & H).
  injection H as <-. exists y, ys'. repeat split; assumption.
Qed.

(** Rows of the two scripts that carry the same three numbers give the same
    values and sigmas. *)
Lemma apply_agrees_with_loop (rs : list Sensitivity.row) :
  forall (rs14 : list Figure14.row) (es : list Sensitivity.entry),
    map (fun r => (Sensitivity.T_K r, Sensitivity.BU_FIMA r, Sensitivity.TD_pct r)) rs
    = map (fun r => (Figure14.T r, Figure14.BU r, Figure14.TD r)) rs14 ->
    mapM Sensitivity.loop_body rs = Ok es ->
    mapM Figure14.storms_lambda rs14
    = Ok (map (fun e => (Sensitivity.FGR_Storms e, Sensitivity.sigma_Storms e)) es) /\
    mapM Figure14.rogozkin_lambda rs14
    = Ok (map (fun e => (Sensitivity.FGR_Rogozkin e, Sensitivity.sigma_Rogozkin e)) es).
Proof.
  induction rs as [ | r rs IH]; intros rs14 es Hrows H.
  - destruct rs14; [ | discriminate]. simpl in H. injection H as <-.
    split; reflexivity.
  - destruct rs14 as [ | r14 rs14]; [discriminate | ].
    simpl in Hrows. injection Hrows as ET EBU ETD Hrows.
    destruct (mapM_cons_Ok_inv _ _ _ H) as (e & es' & He & Hes & ->).
    destruct (loop_body_Ok_inv _ He) as (l & L & ->).
    destruct (loop_locals_splits _ _ _ L) as [PS PR].
    destruct (IH rs14 es' Hrows Hes) as [IS IR].
    simpl. unfold Figure14.storms_lambda at 1, Figure14.rogozkin_lambda at 1.
    rewrite <- ET, <- EBU, <- ETD, PS, PR, IS, IR.
    split; reflexivity.
Qed.

Lemma results_complete :
  exists es : list Sensitivity.entry, Sensitivity.results = Ok es.
Proof.
  destruct (@mapM_Ok _ _ Sensitivity.loop_body
              (Sensitivity.iterrows Sensitivity.df)) as (es & E & _).
  - pose proof (forallb_Forall _ _ sensitivity_rows_perturbable) as P.
    revert P. apply Forall_impl. intros r Hp.
    eexists. apply loop_body_in_domain. exact Hp.
  - exists es. exact E.
Qed.

(** X6: the two scripts compute the same numbers.  Whenever a pass of the
    loop of [sensitivity_analysis.py] completes, [propagate_storms] and
    [propagate_rogozkin] of [figure14_fgr_comparison.py] return, at the same
    inputs, exactly the pairs (fgr_s, sigma_s) and (fgr_r, sigma_r) of that
    pass.  On the embedded table the loop completes, and the columns
    FGR_Storms, sigma_Storms, FGR_Rogozkin, sigma_Rogozkin plotted by figure
    14 are entry by entry the ones written to the sensitivity results. *)
Theorem figure14_agrees_with_sensitivity :
  (forall (T BU TD : R) (l : Sensitivity.locals),
     Sensitivity.loop_locals T BU TD = Ok l ->
     Figure14.propagate_storms T BU TD
       = Ok (Sensitivity.fgr_s l, Sensitivity.sigma_s l) /\
     Figure14.propagate_rogozkin T BU
       = Ok (Sensitivity.fgr_r l, Sensitivity.sigma_r l)) /\
  (exists es : list Sensitivity.entry,
     Sensitivity.results = Ok es /\
     Figure14.storms_results
       = Ok (map (fun e => (Sensitivity.FGR_Storms e, Sensitivity.sigma_Storms e)) es) /\
     Figure14.rogozkin_results
       = Ok (map (fun e => (Sensitivity.FGR_Rogozkin e, Sensitivity.sigma_Rogozkin e))
                 es)).
Proof.
  split; [exact loop_locals_splits | ].
  destruct results_complete as [es E]. exists es.
  split; [exact E | ].
  apply (@apply_agrees_with_loop (Sensitivity.iterrows Sensitivity.df)
           (Figure14.rows Figure14.df) es); [reflexivity | exact E].
Qed.

(* ================================================================= *)
(** ** Signs, ranges and bounds of the propagated quantities *)











(* ================================================================= *)
(** ** The results loop as a whole *)


(** X10: when the loop of [sensitivity_analysis.py] runs to its end over a
    list of rows, [results] holds one entry per row, in row order, and each
    entry carries the five columns of its own row. *)
Theorem results_follow_rows (rs : list Sensitivity.row)
    (es : list Sensitivity.entry) :
  mapM Sensitivity.loop_body rs = Ok es ->
  map Sensitivity.specimen es = rs /\ List.length es = List.length rs.
Proof.
  revert es. induction rs as [ | r rs IH]; intros es H.
  - simpl in H. injection H as <-. split; reflexivity.
  - destruct (mapM_cons_Ok_inv _ _ _ H) as (e & es' & He & Hes & ->).
    destruct (loop_body_Ok_inv _ He) as (l & _ & ->).
    destruct (IH es' Hes) as [IM IL].
    simpl. rewrite IM, IL. split; reflexivity.
Qed.

Lemma results_follow_rows_witness :
  mapM Sensitivity.loop_body [row_RRN01_6] = Ok [entry_RRN01_6] /\
  map Sensitivity.specimen [entry_RRN01_6] = [row_RRN01_6] /\
  List.length [entry_RRN01_6] = List.length [row_RRN01_6].
Proof.
  assert (H : mapM Sensitivity.loop_body [row_RRN01_6] = Ok [entry_RRN01_6]).
  { simpl. rewrite (@loop_body_in_domain row_RRN01_6) by reflexivity.
    reflexivity. }
  split; [exact H | ].
  exact (@results_follow_rows [row_RRN01_6] [entry_RRN01_6] H).
Defined.



(* ================================================================= *)
(** ** The regime summary *)

Lemma temp_regime_low (T : Z) :
  Regimes.temp_regime T = "Low (~873 K)" <-> (T < 1000)%Z.
Proof.
  unfold Regimes.temp_regime.
  destruct (Z.ltb_spec T 1000); [tauto | ].
  destruct (Z.ltb_spec T 1350); split; intros E; try discriminate; lia.
Qed.

Lemma temp_regime_intermediate (T : Z) :
  Regimes.temp_regime T = "Intermediate (~1,173 K)" <-> (1000 <= T < 1350)%Z.
Proof.
  unfold Regimes.temp_regime.
  destruct (Z.ltb_spec T 1000); [split; intros E; try discriminate; lia | ].
  destruct (Z.ltb_spec T 1350); split; intros E; try discriminate;
    try lia; reflexivity.
Qed.

Lemma temp_regime_high (T : Z) :
  Regimes.temp_regime T = "High (~1,473 K)" <-> (1350 <= T)%Z.
Proof.
  unfold Regimes.temp_regime.
  destruct (Z.ltb_spec T 1000); [split; intros E; try discriminate; lia | ].
  destruct (Z.ltb_spec T 1350); split; intros E; try discriminate;
    try lia; reflexivity.
Qed.

Lemma sub_frame_In (es : list Sensitivity.entry) (regime : string)
    (e : Sensitivity.entry) :
  In e (Regimes.sub_frame es regime) <->
  In e es /\
  Regimes.temp_regime (Sensitivity.T_K (Sensitivity.specimen e)) = regime.
Proof.
  unfold Regimes.sub_frame. rewrite filter_In, String.eqb_eq. reflexivity.
Qed.

Lemma regime_indicator (T : Z) :
  let hit := fun regime => String.eqb (Regimes.temp_regime T) regime in
  (hit "Low (~873 K)" = true /\ hit "Intermediate (~1,173 K)" = false /\
   hit "High (~1,473 K)" = false) \/
  (hit "Low (~873 K)" = false /\ hit "Intermediate (~1,173 K)" = true /\
   hit "High (~1,473 K)" = false) \/
  (hit "Low (~873 K)" = false /\ hit "Intermediate (~1,173 K)" = false /\
   hit "High (~1,473 K)" = true).
Proof.
  unfold Regimes.temp_regime. cbv zeta.
  destruct (T <? 1000)%Z; [left; repeat split | ].
  destruct (T <? 1350)%Z; [right; left | right; right]; repeat split.
Qed.

Lemma sub_frames_cover (es : list Sensitivity.entry) :
  (List.length (Regimes.sub_frame es "Low (~873 K)")
   + List.length (Regimes.sub_frame es "Intermediate (~1,173 K)")
   + List.length (Regimes.sub_frame es "High (~1,473 K)"))%nat
  = List.length es.
Proof.
  induction es as [ | e es IH]; [reflexivity | ].
  unfold Regimes.sub_frame in *. cbn [filter].
  destruct (regime_indicator (Sensitivity.T_K (Sensitivity.specimen e)))
    as [(E1 & E2 & E3) | [(E1 & E2 & E3) | (E1 & E2 & E3)]];
    rewrite E1, E2, E3; cbn [List.length]; lia.
Qed.

(** X12: [temp_regime] assigns every temperature to exactly one of the
    three regimes, with the cuts at 1000 K and 1350 K (T < 1000 is low,
    1000 <= T < 1350 intermediate, T >= 1350 high); the three sub-frames of
    the summary loop therefore hold every result entry exactly once: an entry
    is in a sub-frame iff it is in the results and its temperature is in that
    regime, and the three sizes add up to the number of entries. *)
Theorem regimes_partition_results :
  (forall T : Z,
     (Regimes.temp_regime T = "Low (~873 K)" <-> (T < 1000)%Z) /\
     (Regimes.temp_regime T = "Intermediate (~1,173 K)" <-> (1000 <= T < 1350)%Z) /\
     (Regimes.temp_regime T = "High (~1,473 K)" <-> (1350 <= T)%Z)) /\
  (forall T : Z, In (Regimes.temp_regime T) Regimes.regimes) /\
  (forall (es : list Sensitivity.entry) (regime : string) (e : Sensitivity.entry),
     In e (Regimes.sub_frame es regime) <->
     In e es /\
     Regimes.temp_regime (Sensitivity.T_K (Sensitivity.specimen e)) = regime) /\
  (forall es : list Sensitivity.entry,
     (List.length (Regimes.sub_frame es "Low (~873 K)")
      + List.length (Regimes.sub_frame es "Intermediate (~1,173 K)")
      + List.length (Regimes.sub_frame es "High (~1,473 K)"))%nat
     = List.length es).
Proof.
  split; [ | split; [ | split]].
  - intros T. split; [apply temp_regime_low | ].
    split; [apply temp_regime_intermediate | apply temp_regime_high].
  - intros T. unfold Regimes.temp_regime, Regimes.regimes.
    destruct (T <? 1000)%Z; [simpl; tauto | ].
    destruct (T <? 1350)%Z; simpl; tauto.
  - exact sub_frame_In.
  - exact sub_frames_cover.
Qed.










(* ================================================================= *)
(** ** Ross swelling: edges and power laws *)





(* ================================================================= *)
(** ** The plotting loops over targets *)

Lemma unique_from_In (l seen : list Z) (x : Z) :
  In x (Grouping.unique_from seen l) <-> In x l /\ ~ In x seen.
Proof.
  revert seen. induction l as [ | y l IH]; intros seen; simpl.
  - tauto.
  - destruct (existsb (Z.eqb y) seen) eqn:E.
    + apply existsb_exists in E. destruct E as (z & Hz & Ez).
      apply Z.eqb_eq in Ez. subst z.
      rewrite IH. split.
      * tauto.
      * intros [[-> | H] N]; [contradiction | tauto].
    + assert (Ny : ~ In y seen).
      { intros H. assert (existsb (Z.eqb y) seen = true) as C.
        { apply existsb_exists. exists y. split; [exact H | apply Z.eqb_refl]. }
        congruence. }
      simpl. rewrite IH. simpl. split.
      * intros [-> | [H N]]; [tauto | ]. tauto.
      * intros [[-> | H] N]; [tauto | ].
        destruct (Z.eq_dec y x) as [-> | D]; [tauto | ].
        right. split; [exact H | ]. intros [C | C]; [contradiction | tauto].
Qed.

Lemma unique_from_NoDup (l seen : list Z) : NoDup (Grouping.unique_from seen l).
Proof.
  revert seen. induction l as [ | y l IH]; intros seen; simpl.
  - constructor.
  - destruct (existsb (Z.eqb y) seen); [apply IH | ].
    constructor; [ | apply IH].
    rewrite unique_from_In. simpl. tauto.
Qed.

Lemma insert_asc_perm (x : Z) (l : list Z) :
  Permutation (Grouping.insert_asc x l) (x :: l).
Proof.
  induction l as [ | y l IH]; simpl.
  - apply Permutation_refl.
  - destruct (x <=? y)%Z; [apply Permutation_refl | ].
    apply perm_trans with (y :: x :: l); [ | apply perm_swap].
    apply perm_skip. exact IH.
Qed.

Lemma sorted_perm (l : list Z) : Permutation (Grouping.sorted l) l.
Proof.
  induction l as [ | x l IH]; simpl.
  - apply Permutation_refl.
  - apply perm_trans with (x :: Grouping.sorted l).
    + apply insert_asc_perm.
    + apply perm_skip. exact IH.
Qed.

Lemma insert_asc_HdRel (a x : Z) (l : list Z) :
  (a <= x)%Z -> HdRel Z.le a l -> HdRel Z.le a (Grouping.insert_asc x l).
Proof.
  intros Hax H. destruct l as [ | y l]; simpl.
  - constructor. exact Hax.
  - destruct (x <=? y)%Z; constructor; [exact Hax | ].
    inversion H. assumption.
Qed.

Lemma insert_asc_Sorted (x : Z) (l : list Z) :
  Sorted Z.le l -> Sorted Z.le (Grouping.insert_asc x l).
Proof.
  induction 1 as [ | y l Hl IH Hy]; simpl.
  - repeat constructor.
  - destruct (Z.leb_spec x y) as [Le | Gt].
    + constructor; [constructor; assumption | constructor; exact Le].
    + constructor; [exact IH | ].
      apply insert_asc_HdRel; [lia | exact Hy].
Qed.

Lemma sorted_Sorted (l : list Z) : Sorted Z.le (Grouping.sorted l).
Proof.
  induction l as [ | x l IH]; simpl.
  - constructor.
  - apply insert_asc_Sorted. exact IH.
Qed.

Lemma group_keys (A : Type) (target : A -> Z) (rows : list A) :
  map fst (Grouping.target_groups target rows)
  = Grouping.sorted (Grouping.unique (map target rows)).
Proof.
  unfold Grouping.target_groups. rewrite map_map. simpl. apply map_id.
Qed.

Lemma group_keys_In (A : Type) (target : A -> Z) (rows : list A) (k : Z) :
  In k (map fst (Grouping.target_groups target rows)) <-> In k (map target rows).
Proof.
  rewrite group_keys. split.
  - intros H. apply (Permutation_in _ (sorted_perm _)) in H.
    apply unique_from_In in H. tauto.
  - intros H. apply (Permutation_in _ (Permutation_sym (sorted_perm _))).
    apply unique_from_In. simpl. tauto.
Qed.

Lemma group_keys_NoDup (A : Type) (target : A -> Z) (rows : list A) :
  NoDup (map fst (Grouping.target_groups target rows)).
Proof.
  rewrite group_keys.
  apply (Permutation_NoDup (Permutation_sym (sorted_perm _))).
  apply unique_from_NoDup.
Qed.

Lemma filter_head (A : Type) (f : A -> bool) (x : A) (l : list A) :
  filter f (x :: l) = if f x then x :: filter f l else filter f l.
Proof. reflexivity. Qed.

Lemma sub_frames_skip (A : Type) (target : A -> Z) (r : A) (rs : list A)
    (ks : list Z) :
  ~ In (target r) ks ->
  flat_map (fun k => filter (fun x => Z.eqb (target x) k) (r :: rs)) ks
  = flat_map (fun k => filter (fun x => Z.eqb (target x) k) rs) ks.
Proof.
  induction ks as [ | k ks IH]; intros N; [reflexivity | ].
  cbn [flat_map]. rewrite IH by (intros H; apply N; right; exact H).
  rewrite filter_head.
  destruct (Z.eqb_spec (target r) k) as [E | _]; [ | reflexivity].
  exfalso. apply N. left. symmetry. exact E.
Qed.

Lemma sub_frames_take (A : Type) (target : A -> Z) (r : A) (rs : list A)
    (ks : list Z) :
  NoDup ks -> In (target r) ks ->
  Permutation
    (flat_map (fun k => filter (fun x => Z.eqb (target x) k) (r :: rs)) ks)
    (r :: flat_map (fun k => filter (fun x => Z.eqb (target x) k) rs) ks).
Proof.
  induction ks as [ | k ks IH]; intros ND Hin; [contradiction | ].
  inversion ND as [ | ? ? Nk ND']; subst.
  cbn [flat_map]. rewrite filter_head.
  destruct (Z.eqb_spec (target r) k) as [E | NE].
  - rewrite sub_frames_skip by (rewrite E; exact Nk).
    apply Permutation_refl.
  - destruct Hin as [C | Hin]; [symmetry in C; contradiction | ].
    apply perm_trans with
      (filter (fun x => Z.eqb (target x) k) rs
       ++ r :: flat_map (fun k0 => filter (fun x => Z.eqb (target x) k0) rs) ks)%list.
    + apply Permutation_app_head. apply IH; assumption.
    + apply Permutation_sym. apply Permutation_middle.
Qed.

Lemma sub_frames_nil (A : Type) (target : A -> Z) (ks : list Z) :
  flat_map (fun k => filter (fun x : A => Z.eqb (target x) k) []) ks = [].
Proof. induction ks as [ | k ks IH]; simpl; [reflexivity | exact IH]. Qed.

Lemma sub_frames_partition (A : Type) (target : A -> Z) (rows : list A)
    (ks : list Z) :
  NoDup ks -> (forall r : A, In r rows -> In (target r) ks) ->
  Permutation (flat_map (fun k => filter (fun x => Z.eqb (target x) k) rows) ks)
              rows.
Proof.
  intros ND. induction rows as [ | r rs IH]; intros Hall.
  - rewrite sub_frames_nil. apply Permutation_refl.
  - apply perm_trans with
      (r :: flat_map (fun k => filter (fun x => Z.eqb (target x) k) rs) ks).
    + apply sub_frames_take; [exact ND | apply Hall; left; reflexivity].
    + apply perm_skip. apply IH. intros x Hx. apply Hall. right. exact Hx.
Qed.

Lemma groups_concat (A : Type) (target : A -> Z) (rows : list A) :
  List.concat (map snd (Grouping.target_groups target rows))
  = flat_map (fun k => filter (fun x => Z.eqb (target x) k) rows)
             (map fst (Grouping.target_groups target rows)).
Proof.
  rewrite group_keys. unfold Grouping.target_groups.
  rewrite map_map. simpl. rewrite flat_map_concat_map. reflexivity.
Qed.

Lemma groups_permutation (A : Type) (target : A -> Z) (rows : list A) :
  Permutation (List.concat (map snd (Grouping.target_groups target rows))) rows.
Proof.
  rewrite groups_concat. apply sub_frames_partition.
  - apply group_keys_NoDup.
  - intros r Hr. apply group_keys_In. apply in_map. exact Hr.
Qed.

Lemma groups_subset (A : Type) (target : A -> Z) (rows : list A) (k : Z)
    (subset : list A) :
  In (k, subset) (Grouping.target_groups target rows) ->
  subset <> [] /\ subset = filter (fun r => Z.eqb (target r) k) rows.
Proof.
  intros H.
  assert (Hk : In k (map target rows)).
  { apply group_keys_In. apply in_map_iff. exists (k, subset). tauto. }
  unfold Grouping.target_groups in H. apply in_map_iff in H.
  destruct H as (k' & E & _). injection E as -> <-.
  split; [ | reflexivity].
  apply in_map_iff in Hk. destruct Hk as (r & Er & Hr).
  intros Empty.
  assert (C : In r (filter (fun x => Z.eqb (target x) k) rows))
    by (apply filter_In; split; [exact Hr | apply Z.eqb_eq; exact Er]).
  rewrite Empty in C. contradiction.
Qed.

(** X15: the loop header shared by the three figure scripts visits the
    targets present in the table in ascending order, each once; the
    sub-frame of a target is never empty and holds exactly the rows of that
    target in table order; and the sub-frames together hold every row of
    the table exactly once. *)
Theorem target_groups_partition (A : Type) (target : A -> Z) (rows : list A) :
  Sorted Z.le (map fst (Grouping.target_groups target rows)) /\
  NoDup (map fst (Grouping.target_groups target rows)) /\
  (forall k : Z,
     In k (map fst (Grouping.target_groups target rows))
     <-> In k (map target rows)) /\
  (forall (k : Z) (subset : list A),
     In (k, subset) (Grouping.target_groups target rows) ->
     subset <> [] /\
     subset = filter (fun r => Z.eqb (target r) k) rows) /\
  Permutation (List.concat (map snd (Grouping.target_groups target rows))) rows.
Proof.
  split; [rewrite group_keys; apply sorted_Sorted | ].
  split; [apply group_keys_NoDup | ].
  split; [apply group_keys_In | ].
  split; [intros k subset; apply groups_subset | apply groups_permutation].
Qed.

(* ================================================================= *)
(** ** Figure 12: the scatter loop *)









(* ================================================================= *)
(** ** Figure 15: the two scatter panels *)









